(** * scripts/compare_perf.py: benchmark comparison and regression verdict

    A shallow embedding of [scripts/compare_perf.py] and the properties of
    its pipeline: pairwise reduction of the two samples of each run, the
    comparison loop with its classification of every benchmark, the printed
    report, the optional pull-request comment and the final assertions.

    Python's [float] is IEEE 754 binary64 with round-to-nearest-even, which
    is what the kernel's primitive [float] implements, so timings are
    primitive floats and every arithmetic operation and comparison below is
    the one the interpreter performs. *)

From Stdlib Require Import Floats ZArith List String Ascii Bool Arith Lia Uint63.
Import ListNotations.

Set Warnings "-inexact-float".

(** ** Text, output events and the outside world *)

(** The text built by an f-string: literal parts and formatted fields.
    Fields are kept with their format specification instead of being
    converted to digits. *)
Inductive piece : Type :=
| Lit (s : string)               (* literal text, or an interpolated [str] *)
| IntF (k : nat)                 (* [{k}] for an [int] *)
| Fixed (digits : nat) (x : float) (* [{x:.<digits>f}] *)
| ReprF (x : float)              (* [{x}] for a [float] *)
| PathF (p : string).            (* [{filename}] for [Path(p)] *)

Definition text : Type := list piece.

(** The request built by [send_comment]. *)
Record request : Type := {
  url : string;
  authorization : string;
  accept : string;
  body : text;
  commit_id : string
}.

(** What a run does that is visible from outside, in program order. *)
Inductive event : Type :=
| Print (t : text)             (* [print(...)] *)
| ReadText (p : string)        (* [filename.read_text()] of a timing file *)
| ReadEventPayload             (* [read_text()] of the file named by GITHUB_EVENT_PATH *)
| HttpPost (r : request).      (* [session.post(url, json=...)] *)

(** The exceptions a run can end with. *)
Inductive exn : Type :=
| IndexError          (* [sys.argv[k]] out of range *)
| InputError          (* a timing file cannot be read, or a token is not a float *)
| ZeroDivisionError   (* float division by zero *)
| NameError           (* a loop variable read although the loop never ran *)
| TypeError           (* [Path(None)]: GITHUB_EVENT_PATH is not set *)
| EventPayloadError   (* the event file is absent, unparsable or lacks the keys *)
| ConnectionError     (* [session.post] itself raised *)
| HTTPError           (* [r.raise_for_status()] *)
| AssertionError.     (* one of the two final [assert]s *)

(** Everything the script reads from outside its arguments. *)
Record World : Type := {
  (* [[float(t) for t in Path(p).read_text().split()]]; [None] when reading
     or parsing raises *)
  timing_file : string -> option (list float);
  (* [os.getenv("GITHUB_EVENT_PATH")]; [None] when the variable is not set *)
  github_event_path : option string;
  (* [json.loads(Path(p).read_text())["pull_request"]["head"]["sha"]] for
     the path [p] the variable names; [None] when reading, parsing or a key
     lookup raises *)
  event_sha : option string;
  (* the response to the POST: [None] when no response arrives,
     [Some ok] with [ok = false] for a 4xx or 5xx status *)
  post_response : request -> option bool
}.

(** ** A computation that prints and may raise *)

Inductive result (A : Type) : Type :=
| Ok (a : A)
| Raise (e : exn).
Arguments Ok {A} a.
Arguments Raise {A} e.

(** The events performed so far and how the computation ended. *)
Definition M (A : Type) : Type := (list event * result A)%type.

Definition ret {A} (a : A) : M A := ([], Ok a).

Definition raise {A} (e : exn) : M A := ([], Raise e).

Definition emit (ev : event) : M unit := ([ev], Ok tt).

Definition bind {A B} (m : M A) (f : A -> M B) : M B :=
  match m with
  | (t1, Ok a) => let (t2, r) := f a in (t1 ++ t2, r)
  | (t1, Raise e) => (t1, Raise e)
  end.

Declare Scope py_scope.
Delimit Scope py_scope with py.
Notation "x <- m ;; k" := (bind m (fun x => k))
  (at level 61, m at next level, right associativity) : py_scope.
Notation "m ;; k" := (bind m (fun _ => k))
  (at level 61, right associativity) : py_scope.
Local Open Scope py_scope.

Definition trace {A} (m : M A) : list event := fst m.
Definition outcome {A} (m : M A) : result A := snd m.

(** The process exits with a non-zero status exactly when an exception
    reaches the top level. *)
Definition fails {A} (m : M A) : Prop :=
  match outcome m with Ok _ => False | Raise _ => True end.

(** ** Python builtins on floats *)

Local Open Scope float_scope.

(** [min(a, b)]: the first argument unless the second is smaller. *)
Definition py_min (a b : float) : float := if b <? a then b else a.

(** [max(a, b)]: the first argument unless the second is greater. *)
Definition py_max (a b : float) : float := if a <? b then b else a.

(** [a / b] on floats raises on a zero divisor (of either sign). *)
Definition truediv (a b : float) : M float :=
  if b =? 0 then raise ZeroDivisionError else ret (a / b).

(** An [int] operand of a float operation is converted first, rounding to
    nearest even. The argument is the length of a list, so it is below
    [2^63] and the conversion through [Uint63] does not wrap. *)
Definition float_of_int (k : nat) : float :=
  PrimFloat.of_uint63 (Uint63.of_Z (Z.of_nat k)).

(** [assert c] *)
Definition py_assert (c : bool) : M unit :=
  if c then ret tt else raise AssertionError.

(** [sep.join(ts)] *)
Fixpoint join (sep : string) (ts : list text) : text :=
  match ts with
  | [] => []
  | [t] => t
  | t :: rest => t ++ Lit sep :: join sep rest
  end.

Definition newline : string := String (ascii_of_nat 10) EmptyString.

(** ** [send_comment] *)

Definition send_comment (w : World) (message : text)
    (github_token pull_request_number : string) : M unit :=
  if String.eqb pull_request_number EmptyString then ret tt
  else
    let authorization := String.append "Token " github_token in
    let url :=
      String.append "https://api.github.com/repos/returntocorp/semgrep/issues/"
        (String.append pull_request_number "/comments") in
    let accept := "application/vnd.github.comfort-fade-preview+json"%string in
    event_path <- match github_event_path w with
                  | Some p => ret p
                  | None => raise TypeError
                  end ;;
    emit ReadEventPayload ;;
    commit_id <- match event_sha w with
                 | Some sha => ret sha
                 | None => raise EventPayloadError
                 end ;;
    let pr_comment_payload :=
      {| url := url; authorization := authorization; accept := accept;
         body := message; commit_id := commit_id |} in
    emit (HttpPost pr_comment_payload) ;;
    r <- match post_response w pr_comment_payload with
         | Some ok => ret ok
         | None => raise ConnectionError
         end ;;
    emit (Print message) ;;
    if r then ret tt else raise HTTPError.

(** ** [read_timing] *)

Definition read_timing (w : World) (filename : string) : M (list float) :=
  emit (Print [Lit "Reading "; PathF filename]) ;;
  emit (ReadText filename) ;;
  match timing_file w filename with
  | Some times => ret times
  | None => raise InputError
  end.

(** ** [main] *)

(** [sys.argv[k]] *)
Definition argv_get (argv : list string) (k : nat) : M string :=
  match nth_error argv k with
  | Some a => ret a
  | None => raise IndexError
  end.

Record arguments : Type := {
  baseline_timing_file_1 : string;
  baseline_timing_file_2 : string;
  latest_timing_file_1 : string;
  latest_timing_file_2 : string;
  github_token : string;
  pull_request_number : string
}.

(** Lines 47-54. [argv] is [sys.argv], the script's name included. *)
Definition read_arguments (argv : list string) : M arguments :=
  b1 <- argv_get argv 1 ;;
  b2 <- argv_get argv 2 ;;
  l1 <- argv_get argv 3 ;;
  l2 <- argv_get argv 4 ;;
  token <- argv_get argv 5 ;;
  let pr := if (7 <=? List.length argv)%nat then nth 6 argv EmptyString
            else EmptyString in
  ret {| baseline_timing_file_1 := b1; baseline_timing_file_2 := b2;
         latest_timing_file_1 := l1; latest_timing_file_2 := l2;
         github_token := token; pull_request_number := pr |}.

(** [[min(t1, t2) for t1, t2 in zip(xs, ys)]] *)
Definition fastest (xs ys : list float) : list float :=
  map (fun '(t1, t2) => py_min t1 t2) (combine xs ys).

(** Lines 56-65: the four files are read in argument order, then each pair
    of samples is reduced. *)
Definition load_times (w : World) (a : arguments)
    : M (list float * list float) :=
  b1 <- read_timing w (baseline_timing_file_1 a) ;;
  b2 <- read_timing w (baseline_timing_file_2 a) ;;
  l1 <- read_timing w (latest_timing_file_1 a) ;;
  l2 <- read_timing w (latest_timing_file_2 a) ;;
  ret (fastest b1 b2, fastest l1 l2).

(** The accumulators of lines 67-78, and the loop variable [rel_dur], which
    stays bound after the loop and is unbound before its first iteration. *)
Record accumulators : Type := {
  n : nat;
  total_baseline : float;
  total_latest : float;
  total_rel_dur : float;
  min_rel_dur : float;
  max_rel_dur : float;
  messages : list text;
  errors : nat;
  rel_dur : option float
}.

Definition initial : accumulators :=
  {| n := 0; total_baseline := 0.0; total_latest := 0.0;
     total_rel_dur := 0.0; min_rel_dur := 1.0; max_rel_dur := 1.0;
     messages := []; errors := 0; rel_dur := None |}.

(** The per-record line of lines 91-94. *)
Definition record_line (i : nat) (ratio baseline_time latest_time : float)
    : text :=
  [Lit "["; IntF i; Lit "] "; Fixed 3 ratio; Lit "x Baseline: ";
   Fixed 3 baseline_time; Lit ", Latest: "; Fixed 3 latest_time].

(** The three messages of lines 102, 105 and 108. *)
Definition too_slow_message (i : nat) (perc : float) : text :=
  [Lit "🚫 Benchmark #"; IntF i; Lit " is too slow: +"; Fixed 1 perc; Lit "%"].

Definition slowdown_message (i : nat) (perc : float) : text :=
  [Lit "⚠️Potential non-blocking slowdown in benchmark #"; IntF i; Lit ": +";
   Fixed 1 perc; Lit "%"].

Definition speedup_message (i : nat) (perc : float) : text :=
  [Lit "🔥 Potential speedup in benchmark #"; IntF i; Lit ": ";
   Fixed 1 perc; Lit "%"].

(** The condition of line 100. *)
Definition too_slow (baseline_time latest_time : float) : bool :=
  (baseline_time * 1.2 <? latest_time) && (5.0 <? latest_time - baseline_time).

(** Lines 100-108: the new error count and message list. *)
Definition classify (i : nat) (baseline_time latest_time ratio : float)
    (errs : nat) (msgs : list text) : nat * list text :=
  let perc := 100 * (ratio - 1) in
  if too_slow baseline_time latest_time then
    (S errs, msgs ++ [too_slow_message i perc])
  else if 1.1 <? ratio then
    (errs, msgs ++ [slowdown_message i perc])
  else if ratio <? 0.9 then
    (errs, msgs ++ [speedup_message i perc])
  else (errs, msgs).

(** The body of the loop, lines 81-108. The updates of lines 82-84 come
    before the division of line 86 in the source; when the division raises
    they are lost with the rest of the state, so all updates are gathered in
    the record built at the end. *)
Definition loop_body (s : accumulators) (baseline_time latest_time : float)
    : M accumulators :=
  let i := n s in
  ratio <- truediv latest_time baseline_time ;;
  emit (Print (record_line i ratio baseline_time latest_time)) ;;
  let '(errs, msgs) :=
    classify i baseline_time latest_time ratio (errors s) (messages s) in
  ret {| n := S (n s);
         total_baseline := total_baseline s + baseline_time;
         total_latest := total_latest s + latest_time;
         total_rel_dur := total_rel_dur s + ratio;
         min_rel_dur := py_min (min_rel_dur s) ratio;
         max_rel_dur := py_max (max_rel_dur s) ratio;
         messages := msgs;
         errors := errs;
         rel_dur := Some ratio |}.

(** [for baseline_time, latest_time in pairs: ...] *)
Fixpoint compare_loop (s : accumulators) (pairs : list (float * float))
    : M accumulators :=
  match pairs with
  | [] => ret s
  | (baseline_time, latest_time) :: rest =>
      s' <- loop_body s baseline_time latest_time ;;
      compare_loop s' rest
  end.

(** Lines 67-108. *)
Definition compare (baseline_times latest_times : list float)
    : M accumulators :=
  compare_loop initial (combine baseline_times latest_times).

(** The two summary lines of lines 117-118. *)
Definition ratio_line (average minimum maximum : float) : text :=
  [Lit "Average: "; Fixed 3 average; Lit "x, Min: "; Fixed 3 minimum;
   Lit "x, Max: "; Fixed 3 maximum; Lit "x"].

Definition totals_line (baseline latest : float) : text :=
  [Lit "Total Baseline: "; ReprF baseline; Lit " s, Latest: "; ReprF latest;
   Lit " s"].

(** Lines 110-118: the mean, its wording, and the two summary lines. The
    result is [(mean_rel_dur, mean_perc_str)]. *)
Definition summarize (s : accumulators) : M (float * text) :=
  mean_rel_dur <- truediv (total_rel_dur s) (float_of_int (n s)) ;;
  let mean_perc := 100 * (mean_rel_dur - 1) in
  let mean_perc_str :=
    if 0 <? mean_perc then [Fixed 1 mean_perc; Lit "% slower"]
    else [Fixed 1 (- mean_perc); Lit "% faster"] in
  last_ratio <- match rel_dur s with
                | Some r => ret r
                | None => raise NameError
                end ;;
  emit (Print (ratio_line last_ratio last_ratio last_ratio)) ;;
  emit (Print (totals_line (total_baseline s) (total_latest s))) ;;
  ret (mean_rel_dur, mean_perc_str).

(** The comment text of lines 122-127. *)
Definition comment_text (s : accumulators) (mean_perc_str : text) : text :=
  join (String.append newline newline)
    (messages s
       ++ [IntF (n s) :: Lit " benchmarks, " :: mean_perc_str
             ++ [Lit " on average."]]
       ++ [[Lit "Deviations greater than 10% from the baseline are reported. See run output for more details."]]).

(** Lines 121-133. *)
Definition notify (w : World) (a : arguments) (s : accumulators)
    (mean_perc_str : text) : M unit :=
  match messages s with
  | [] => ret tt
  | _ :: _ =>
      let msg := comment_text s mean_perc_str in
      emit (Print (Lit "Sending warnings and errors as a PR comment:"
                     :: Lit newline :: msg)) ;;
      send_comment w msg (github_token a) (pull_request_number a)
  end.

(** Lines 136-139. *)
Definition verdict (s : accumulators) (mean_rel_dur : float) : M unit :=
  py_assert (errors s =? 0)%nat ;;
  py_assert (mean_rel_dur <? 1.06).

(** Everything [main] does before its two assertions. *)
Definition report (w : World) (argv : list string)
    : M (accumulators * float) :=
  a <- read_arguments argv ;;
  times <- load_times w a ;;
  s <- compare (fst times) (snd times) ;;
  summary <- summarize s ;;
  notify w a s (snd summary) ;;
  ret (s, fst summary).

Definition main (w : World) (argv : list string) : M unit :=
  r <- report w argv ;;
  verdict (fst r) (snd r).

(** ** Specification-side descriptions of a run *)

(** The record lines a complete pass over [pairs] prints, the first one
    numbered [i]. *)
Fixpoint record_lines (i : nat) (pairs : list (float * float)) : list event :=
  match pairs with
  | [] => []
  | (baseline_time, latest_time) :: rest =>
      Print (record_line i (latest_time / baseline_time)
               baseline_time latest_time)
        :: record_lines (S i) rest
  end.

(** The ratios of a list of (baseline, latest) pairs. *)
Definition ratios (pairs : list (float * float)) : list float :=
  map (fun '(baseline_time, latest_time) => latest_time / baseline_time) pairs.

(** The number of pairs that satisfy the condition of line 100. *)
Definition hard_regressions (pairs : list (float * float)) : nat :=
  List.length (filter (fun '(b, l) => too_slow b l) pairs).

(** Left-to-right float sum starting from [z], as [+=] computes it. *)
Definition running_sum (z : float) (xs : list float) : float :=
  fold_left (fun a x => a + x) xs z.

(** What reading the four files prints and touches. *)
Definition reading_events (a : arguments) : list event :=
  [Print [Lit "Reading "; PathF (baseline_timing_file_1 a)];
   ReadText (baseline_timing_file_1 a);
   Print [Lit "Reading "; PathF (baseline_timing_file_2 a)];
   ReadText (baseline_timing_file_2 a);
   Print [Lit "Reading "; PathF (latest_timing_file_1 a)];
   ReadText (latest_timing_file_1 a);
   Print [Lit "Reading "; PathF (latest_timing_file_2 a)];
   ReadText (latest_timing_file_2 a)].

Definition is_http_post (ev : event) : bool :=
  match ev with HttpPost _ => true | _ => false end.

Definition is_event_read (ev : event) : bool :=
  match ev with ReadEventPayload => true | _ => false end.

(** An event that involves neither the event payload nor the network. *)
Definition offline (ev : event) : bool :=
  negb (is_http_post ev) && negb (is_event_read ev).

(** What a run writes to standard output, in order. *)
Definition stdout (t : list event) : list text :=
  flat_map (fun ev => match ev with Print x => [x] | _ => [] end) t.

(** The requests a run sends, in order. *)
Definition posts (t : list event) : list request :=
  flat_map (fun ev => match ev with HttpPost r => [r] | _ => [] end) t.


(** The message, if any, that benchmark [i] with times [b] and [l] gets. *)
Definition message_for (i : nat) (b l : float) : list text :=
  let perc := 100 * (l / b - 1) in
  if too_slow b l then [too_slow_message i perc]
  else if 1.1 <? l / b then [slowdown_message i perc]
  else if l / b <? 0.9 then [speedup_message i perc]
  else [].

(** The messages of a list of pairs, the first pair being benchmark [i]. *)
Fixpoint expected_messages (i : nat) (pairs : list (float * float))
    : list text :=
  match pairs with
  | [] => []
  | (b, l) :: rest => message_for i b l ++ expected_messages (S i) rest
  end.

(** The request [send_comment] builds for a message, a token, a
    pull-request number and the commit hash of the event payload. *)
Definition comment_request (message : text) (token pr sha : string)
    : request :=
  {| url :=
       String.append
         "https://api.github.com/repos/returntocorp/semgrep/issues/"
         (String.append pr "/comments");
     authorization := String.append "Token " token;
     accept := "application/vnd.github.comfort-fade-preview+json";
     body := message;
     commit_id := sha |}.





(** The line that announces the comment, line 128. *)
Definition sending_line (msg : text) : text :=
  Lit "Sending warnings and errors as a PR comment:" :: Lit newline :: msg.

(** ** Concrete runs *)

(** A file system with the four timing files [b1], [b2], [l1], [l2]. *)
Definition four_files (b1 b2 l1 l2 : list float) (p : string)
    : option (list float) :=
  if String.eqb p "b1" then Some b1
  else if String.eqb p "b2" then Some b2
  else if String.eqb p "l1" then Some l1
  else if String.eqb p "l2" then Some l2
  else None.

(** Both samples of a run are the same list; the event file is readable
    and the API answers with status [ok]. *)
Definition sample_world (baseline latest : list float) (ok : bool) : World :=
  {| timing_file := four_files baseline baseline latest latest;
     github_event_path := Some "event.json"%string;
     event_sha := Some "0123abc"%string;
     post_response := fun _ => Some ok |}.

(** [sys.argv] without and with a pull-request number. *)
Definition argv_no_pr : list string :=
  ["compare_perf.py"; "b1"; "b2"; "l1"; "l2"; "token"]%string.

Definition argv_pr : list string :=
  ["compare_perf.py"; "b1"; "b2"; "l1"; "l2"; "token"; "7"]%string.

Definition sample_arguments (pr : string) : arguments :=
  {| baseline_timing_file_1 := "b1"; baseline_timing_file_2 := "b2";
     latest_timing_file_1 := "l1"; latest_timing_file_2 := "l2";
     github_token := "token"; pull_request_number := pr |}.

(** * Properties *)

(** ** The monad *)

Lemma bind_ok_inv {A B} (m : M A) (f : A -> M B) t b :
  bind m f = (t, Ok b) ->
  exists t1 a t2, m = (t1, Ok a) /\ f a = (t2, Ok b) /\ t = t1 ++ t2.
Proof.
  unfold bind. destruct m as [t1 [a|e]].
  - destruct (f a) as [t2 r] eqn:E. intros H. inversion H; subst.
    exists t1, a, t2. auto.
  - discriminate.
Qed.

Lemma bind_raise_inv {A B} (m : M A) (f : A -> M B) t e :
  bind m f = (t, Raise e) ->
  m = (t, Raise e) \/
  exists t1 a t2, m = (t1, Ok a) /\ f a = (t2, Raise e) /\ t = t1 ++ t2.
Proof.
  unfold bind. destruct m as [t1 [a|e']].
  - destruct (f a) as [t2 r] eqn:E. intros H. inversion H; subst.
    right. exists t1, a, t2. auto.
  - intros H. inversion H; subst. now left.
Qed.

Lemma bind_ok_l {A B} t1 (a : A) (f : A -> M B) :
  bind (t1, Ok a) f = (t1 ++ trace (f a), outcome (f a)).
Proof. unfold bind, trace, outcome. now destruct (f a). Qed.

Lemma bind_raise_l {A B} t1 e (f : A -> M B) :
  bind (t1, Raise e) f = (t1, Raise e).
Proof. reflexivity. Qed.

Lemma run_eta {A} (m : M A) : m = (trace m, outcome m).
Proof. now destruct m. Qed.

(** ** Order on floats

    Comparisons of primitive floats are specified through [SFcompare] on
    their decoded form; the facts used below follow from its symmetry. *)

Lemma SFcompare_antisym (x y : spec_float) :
  SFcompare y x = option_map CompOpp (SFcompare x y).
Proof.
  destruct x as [sx|sx| |sx mx ex], y as [sy|sy| |sy my ey]; simpl;
    try reflexivity;
    try (destruct sx; reflexivity);
    try (destruct sy; reflexivity);
    try (destruct sx, sy; reflexivity).
  f_equal.
  rewrite (Z.compare_antisym ex ey).
  change (PosDef.Pos.compare_cont Eq my mx) with (Pos.compare my mx).
  change (PosDef.Pos.compare_cont Eq mx my) with (Pos.compare mx my).
  rewrite (Pos.compare_antisym mx my).
  destruct sx, sy, (ex ?= ey)%Z, (mx ?= my)%positive; reflexivity.
Qed.

Lemma SFcompare_none (x y : spec_float) :
  SFcompare x y = None <-> x = S754_nan \/ y = S754_nan.
Proof.
  destruct x as [sx|sx| |sx mx ex], y as [sy|sy| |sy my ey]; simpl;
    split; intros H; auto; try discriminate;
    try (destruct H; discriminate).
Qed.

Lemma SFcompare_diag (x : spec_float) :
  SFcompare x x = None \/ SFcompare x x = Some Eq.
Proof.
  destruct x as [s|s| |s m e]; simpl; auto; right; destruct s;
    try reflexivity;
    rewrite Z.compare_refl;
    change (PosDef.Pos.compare_cont Eq m m) with (Pos.compare m m);
    now rewrite Pos.compare_refl.
Qed.

Lemma is_nan_spec (x : float) : is_nan x = true <-> Prim2SF x = S754_nan.
Proof.
  unfold is_nan. rewrite FloatAxioms.eqb_spec. unfold SFeqb.
  destruct (SFcompare_diag (Prim2SF x)) as [H|H]; rewrite H; simpl.
  - apply SFcompare_none in H. split; [tauto | reflexivity].
  - split; [discriminate|]. intros E. rewrite E in H. discriminate.
Qed.

(** [x <= y] excludes [y < x]. *)
Lemma leb_not_gtb (x y : float) : (x <=? y) = true -> (y <? x) = false.
Proof.
  rewrite FloatAxioms.leb_spec, FloatAxioms.ltb_spec. unfold SFleb, SFltb.
  rewrite (SFcompare_antisym (Prim2SF x) (Prim2SF y)).
  destruct (SFcompare (Prim2SF x) (Prim2SF y)) as [[ | | ]|]; simpl;
    congruence.
Qed.

(** [x == y] excludes both strict comparisons. *)
Lemma eqb_not_ltb (x y : float) :
  (x =? y) = true -> (x <? y) = false /\ (y <? x) = false.
Proof.
  rewrite FloatAxioms.eqb_spec, !FloatAxioms.ltb_spec. unfold SFeqb, SFltb.
  rewrite (SFcompare_antisym (Prim2SF x) (Prim2SF y)).
  destruct (SFcompare (Prim2SF x) (Prim2SF y)) as [[ | | ]|]; simpl; auto;
    congruence.
Qed.

(** A failed [x < y] means [y <= x], unless one side is not a number. *)
Lemma ltb_false_iff (x y : float) :
  (x <? y) = false <->
  (y <=? x) = true \/ is_nan x = true \/ is_nan y = true.
Proof.
  rewrite !is_nan_spec, FloatAxioms.leb_spec, FloatAxioms.ltb_spec.
  unfold SFleb, SFltb.
  rewrite (SFcompare_antisym (Prim2SF x) (Prim2SF y)).
  pose proof (SFcompare_none (Prim2SF x) (Prim2SF y)) as Hn.
  destruct (SFcompare (Prim2SF x) (Prim2SF y)) as [[ | | ]|]; simpl;
    split; auto; try discriminate.
  - intros [H|H]; [discriminate|]. apply Hn in H. discriminate.
  - intros _. right. now apply Hn.
Qed.

(** Python's [min] of two numbers is one of them and is below both. *)
Lemma py_min_lower_bound (a b : float) :
  is_nan a = false -> is_nan b = false ->
  (py_min a b = a \/ py_min a b = b) /\
  (py_min a b <=? a) = true /\ (py_min a b <=? b) = true.
Proof.
  intros Ha Hb. unfold py_min.
  assert (Hrefl : forall x, is_nan x = false -> (x <=? x) = true).
  { intros x Hx. destruct (proj1 (ltb_false_iff x x)) as [H|[H|H]];
      auto; try congruence.
    apply (eqb_not_ltb x x). unfold is_nan in Hx.
    now apply negb_false_iff in Hx. }
  destruct (b <? a) eqn:E.
  - split; [now right|]. split; [|now apply Hrefl].
    destruct (proj1 (ltb_false_iff a b)) as [H|[H|H]]; auto; try congruence.
    destruct (a <? b) eqn:E'; [|reflexivity].
    rewrite FloatAxioms.ltb_spec in E, E'. unfold SFltb in E, E'.
    rewrite (SFcompare_antisym (Prim2SF a) (Prim2SF b)) in E.
    destruct (SFcompare (Prim2SF a) (Prim2SF b)) as [[ | | ]|];
      simpl in E; discriminate.
  - split; [now left|]. split; [now apply Hrefl|].
    destruct (proj1 (ltb_false_iff b a) E) as [H|[H|H]]; auto; congruence.
Qed.

(** ** Pairwise reduction *)

Lemma fastest_length (A B : list float) :
  List.length (fastest A B) = Nat.min (List.length A) (List.length B).
Proof. unfold fastest. now rewrite length_map, length_combine. Qed.

Lemma fastest_nth (A B : list float) :
  forall i d, (i < Nat.min (List.length A) (List.length B))%nat ->
    nth i (fastest A B) d = py_min (nth i A d) (nth i B d).
Proof.
  unfold fastest. revert B.
  induction A as [|x A IH]; intros [|y B] i d Hi; simpl in *; try lia.
  destruct i as [|i]; [reflexivity|]. apply IH. lia.
Qed.

Lemma fastest_prefix (A B : list float) :
  let k := Nat.min (List.length A) (List.length B) in
  fastest A B = fastest (firstn k A) (firstn k B).
Proof.
  unfold fastest. revert B.
  induction A as [|x A IH]; intros [|y B]; simpl; try reflexivity.
  f_equal. apply IH.
Qed.

(** C8: the pairwise reduction of two sequences of equal length has that
    length and holds [min(A[i], B[i])] at every index [i]; for sequences of
    different lengths it is the reduction of their overlapping prefixes, so
    it has the shorter length and the same elements there. *)
Theorem fastest_pointwise_min (A B : list float) :
  (List.length A = List.length B ->
   List.length (fastest A B) = List.length A /\
   forall i d, (i < List.length A)%nat ->
     nth i (fastest A B) d = py_min (nth i A d) (nth i B d)) /\
  (let k := Nat.min (List.length A) (List.length B) in
   List.length (fastest A B) = k /\
   fastest A B = fastest (firstn k A) (firstn k B) /\
   forall i d, (i < k)%nat ->
     nth i (fastest A B) d = py_min (nth i A d) (nth i B d)).
Proof.
  split.
  - intros Hlen. split.
    + rewrite fastest_length. lia.
    + intros i d Hi. apply fastest_nth. lia.
  - cbv zeta. split; [apply fastest_length|].
    split; [apply fastest_prefix|]. apply fastest_nth.
Qed.

Lemma fastest_pointwise_min_witness :
  List.length (fastest [3.5; 2.0; 9.0] [3.0; 2.5; 9.0]) = 3%nat /\
  nth 1 (fastest [3.5; 2.0; 9.0] [3.0; 2.5; 9.0]) 0 = 2.0 /\
  fastest [3.5; 2.0] [3.0; 2.5; 9.0] = [3.0; 2.0].
Proof.
  pose proof (fastest_pointwise_min [3.5; 2.0; 9.0] [3.0; 2.5; 9.0])
    as [Heq _].
  destruct (Heq eq_refl) as [Hlen Hnth].
  split; [exact Hlen|].
  split; [rewrite (Hnth 1%nat 0); [reflexivity | simpl; lia]|].
  pose proof (fastest_pointwise_min [3.5; 2.0] [3.0; 2.5; 9.0])
    as [_ [_ [Hpre _]]].
  rewrite Hpre. reflexivity.
Defined.

(** ** One iteration of the loop *)

Lemma loop_body_nonzero (s : accumulators) (b l : float) :
  (b =? 0) = false ->
  loop_body s b l =
    ([Print (record_line (n s) (l / b) b l)],
     Ok {| n := S (n s);
           total_baseline := total_baseline s + b;
           total_latest := total_latest s + l;
           total_rel_dur := total_rel_dur s + l / b;
           min_rel_dur := py_min (min_rel_dur s) (l / b);
           max_rel_dur := py_max (max_rel_dur s) (l / b);
           messages := snd (classify (n s) b l (l / b) (errors s) (messages s));
           errors := fst (classify (n s) b l (l / b) (errors s) (messages s));
           rel_dur := Some (l / b) |}).
Proof.
  intros Hb. unfold loop_body, truediv. rewrite Hb.
  unfold bind, ret, emit. simpl.
  destruct (classify (n s) b l (l / b) (errors s) (messages s)).
  reflexivity.
Qed.

Lemma loop_body_zero (s : accumulators) (b l : float) :
  (b =? 0) = true -> loop_body s b l = ([], Raise ZeroDivisionError).
Proof. intros Hb. unfold loop_body, truediv. now rewrite Hb. Qed.

Lemma loop_body_ok_inv (s s' : accumulators) (b l : float) t :
  loop_body s b l = (t, Ok s') ->
  (b =? 0) = false /\
  t = [Print (record_line (n s) (l / b) b l)] /\
  n s' = S (n s) /\
  rel_dur s' = Some (l / b) /\
  total_baseline s' = total_baseline s + b /\
  total_latest s' = total_latest s + l /\
  total_rel_dur s' = total_rel_dur s + l / b /\
  (errors s', messages s') =
    classify (n s) b l (l / b) (errors s) (messages s).
Proof.
  intros H. destruct (b =? 0) eqn:Hb.
  - rewrite loop_body_zero in H by assumption. discriminate.
  - rewrite loop_body_nonzero in H by assumption.
    inversion H; subst; simpl.
    destruct (classify (n s) b l (l / b) (errors s) (messages s)).
    repeat split; reflexivity.
Qed.

(** The three messages are told apart by their first literal. *)
Lemma messages_distinct (i j : nat) (p q : float) :
  too_slow_message i p <> slowdown_message j q /\
  too_slow_message i p <> speedup_message j q /\
  slowdown_message i p <> speedup_message j q.
Proof. repeat split; discriminate. Qed.

Lemma app_one_neq {A} (l : list A) (x : A) : l <> l ++ [x].
Proof.
  intros H. apply (f_equal (@List.length A)) in H.
  rewrite length_app in H. simpl in H. lia.
Qed.

(** The branches of lines 100-108 are exclusive: exactly one of four
    outcomes. *)
Lemma classify_cases (i : nat) (b l r : float) (errs : nat)
    (msgs : list text) :
  let perc := 100 * (r - 1) in
  (too_slow b l = true /\
   classify i b l r errs msgs = (S errs, msgs ++ [too_slow_message i perc])) \/
  (too_slow b l = false /\ (1.1 <? r) = true /\
   classify i b l r errs msgs = (errs, msgs ++ [slowdown_message i perc])) \/
  (too_slow b l = false /\ (1.1 <? r) = false /\ (r <? 0.9) = true /\
   classify i b l r errs msgs = (errs, msgs ++ [speedup_message i perc])) \/
  (too_slow b l = false /\ (1.1 <? r) = false /\ (r <? 0.9) = false /\
   classify i b l r errs msgs = (errs, msgs)).
Proof.
  unfold classify. cbv zeta.
  destruct (too_slow b l); [now left|].
  destruct (1.1 <? r); [right; now left|].
  destruct (r <? 0.9); [right; right; now left|].
  right; right; right. auto.
Qed.

Lemma too_slow_iff (b l : float) :
  too_slow b l = true <-> (b * 1.2 <? l) = true /\ (5.0 <? l - b) = true.
Proof. unfold too_slow. apply andb_true_iff. Qed.

(** What one iteration does to the error count and the message list, and
    the two runs of the loop body at (100, 121) and (1, 1.3). *)
Lemma hard_regression_step (s s' : accumulators) (b l : float)
    (t : list event) :
  loop_body s b l = (t, Ok s') ->
  let hard := (b * 1.2 <? l) = true /\ (5.0 <? l - b) = true in
  let blocking := too_slow_message (n s) (100 * (l / b - 1)) in
  (errors s' = S (errors s) <-> hard) /\
  (messages s' = messages s ++ [blocking] <-> hard) /\
  (~ hard -> errors s' = errors s) /\
  (exists t1 s1, loop_body initial 100 121 = (t1, Ok s1) /\
     errors s1 = 1%nat /\
     messages s1 = [too_slow_message 0 (100 * (121 / 100 - 1))]) /\
  (exists t2 s2, loop_body initial 1 1.3 = (t2, Ok s2) /\
     errors s2 = 0%nat /\
     messages s2 = [slowdown_message 0 (100 * (1.3 / 1 - 1))]).
Proof.
  intros H. cbv zeta.
  apply loop_body_ok_inv in H.
  destruct H as (_ & _ & _ & _ & _ & _ & _ & Hc).
  rewrite <- too_slow_iff.
  pose proof (messages_distinct (n s) (n s) (100 * (l / b - 1))
                (100 * (l / b - 1))) as (D1 & D2 & _).
  assert (Hruns : forall b0 l0 e0 m0,
             fst (classify 0 b0 l0 (l0 / b0) 0 []) = e0 ->
             snd (classify 0 b0 l0 (l0 / b0) 0 []) = m0 ->
             (b0 =? 0) = false ->
             exists t0 s0, loop_body initial b0 l0 = (t0, Ok s0) /\
               errors s0 = e0 /\ messages s0 = m0).
  { intros b0 l0 e0 m0 He0 Hm0 Hb0. eexists _, _.
    rewrite (loop_body_nonzero initial b0 l0 Hb0).
    split; [reflexivity|]. simpl. auto. }
  assert (Hfixed :
    (exists t1 s1, loop_body initial 100 121 = (t1, Ok s1) /\
       errors s1 = 1%nat /\
       messages s1 = [too_slow_message 0 (100 * (121 / 100 - 1))]) /\
    (exists t2 s2, loop_body initial 1 1.3 = (t2, Ok s2) /\
       errors s2 = 0%nat /\
       messages s2 = [slowdown_message 0 (100 * (1.3 / 1 - 1))])).
  { split; apply Hruns; reflexivity. }
  destruct Hfixed as [Ex1 Ex2].
  destruct (classify_cases (n s) b l (l / b) (errors s) (messages s))
    as [(Hs & E)|[(Hs & _ & E)|[(Hs & _ & _ & E)|(Hs & _ & _ & E)]]];
    cbv zeta in E; rewrite E in Hc; inversion Hc as [[He Hm]]; clear Hc;
    rewrite Hs, He, Hm;
    (split; [|split; [|split; [|split; [exact Ex1|exact Ex2]]]]).
  - tauto.
  - tauto.
  - intros Hn. now elim Hn.
  - split; [lia|discriminate].
  - split; [|discriminate].
    intros Habs. apply app_inv_head in Habs. inversion Habs.
  - reflexivity.
  - split; [lia|discriminate].
  - split; [|discriminate].
    intros Habs. apply app_inv_head in Habs. inversion Habs.
  - reflexivity.
  - split; [lia|discriminate].
  - split; [|discriminate].
    intros Habs. now apply app_one_neq in Habs.
  - reflexivity.
Qed.

(** C2: in the iteration for benchmark [i = n s], the error count is
    incremented, and the blocking message, which names benchmark [i] and
    shows the percentage [100 * (ratio - 1)] with one decimal, is appended,
    exactly when both [latest_time > baseline_time * 1.2] and
    [latest_time - baseline_time > 5.0] hold. Baseline 100 with latest 121
    is such a regression; baseline 1 with latest 1.3 is not and yields the
    non-blocking warning only. *)
Theorem hard_regression_iff (s s' : accumulators) (b l : float)
    (t : list event) :
  loop_body s b l = (t, Ok s') ->
  let hard := (b * 1.2 <? l) = true /\ (5.0 <? l - b) = true in
  let ratio := l / b in
  let blocking :=
    [Lit "🚫 Benchmark #"; IntF (n s); Lit " is too slow: +";
     Fixed 1 (100 * (ratio - 1)); Lit "%"] in
  (errors s' = S (errors s) <-> hard) /\
  (messages s' = messages s ++ [blocking] <-> hard) /\
  (~ hard -> errors s' = errors s) /\
  (exists t1 s1, loop_body initial 100 121 = (t1, Ok s1) /\
     errors s1 = 1%nat /\
     messages s1 =
       [[Lit "🚫 Benchmark #"; IntF 0; Lit " is too slow: +";
         Fixed 1 (100 * (121 / 100 - 1)); Lit "%"]]) /\
  (exists t2 s2, loop_body initial 1 1.3 = (t2, Ok s2) /\
     errors s2 = 0%nat /\
     messages s2 =
       [[Lit "⚠️Potential non-blocking slowdown in benchmark #"; IntF 0;
         Lit ": +"; Fixed 1 (100 * (1.3 / 1 - 1)); Lit "%"]]).
Proof.
  intros H. exact (hard_regression_step s s' b l t H).
Qed.

Lemma hard_regression_iff_witness :
  exists t s', loop_body initial 100 121 = (t, Ok s') /\
    errors s' = 1%nat /\
    messages s' =
      [[Lit "🚫 Benchmark #"; IntF 0; Lit " is too slow: +";
        Fixed 1 (100 * (121 / 100 - 1)); Lit "%"]].
Proof.
  eexists _, _. split; [reflexivity|].
  pose proof (hard_regression_iff initial _ 100 121 _ eq_refl)
    as (He & Hm & _).
  cbv zeta in He, Hm.
  split; [apply He | apply Hm]; split; reflexivity.
Defined.

(** C3: the boundaries are strict. A benchmark whose ratio is exactly 1.1
    gets no slowdown warning, one whose ratio is exactly 0.9 gets no
    speedup message, and a ratio within [0.9, 1.1] that is not a hard
    regression adds no message and no error. *)
Theorem boundaries_are_strict (s s' : accumulators) (b l : float)
    (t : list event) :
  loop_body s b l = (t, Ok s') ->
  let ratio := l / b in
  ((ratio =? 1.1) = true ->
   forall i p, messages s' <> messages s ++ [slowdown_message i p]) /\
  ((ratio =? 0.9) = true ->
   forall i p, messages s' <> messages s ++ [speedup_message i p]) /\
  ((0.9 <=? ratio) = true -> (ratio <=? 1.1) = true ->
   too_slow b l = false ->
   messages s' = messages s /\ errors s' = errors s).
Proof.
  intros H. cbv zeta.
  apply loop_body_ok_inv in H.
  destruct H as (_ & _ & _ & _ & _ & _ & _ & Hc).
  destruct (classify_cases (n s) b l (l / b) (errors s) (messages s))
    as [(Hs & E)|[(Hs & Hgt & E)|[(Hs & Hgt & Hlt & E)|(Hs & Hgt & Hlt & E)]]];
    cbv zeta in E; rewrite E in Hc; inversion Hc as [[He Hm]]; clear Hc;
    rewrite He, Hm; (split; [|split]).
  - intros _ i p Habs. apply app_inv_head in Habs. inversion Habs.
  - intros _ i p Habs. apply app_inv_head in Habs. inversion Habs.
  - intros _ _ Hn. congruence.
  - intros Heq. apply eqb_not_ltb in Heq. destruct Heq. congruence.
  - intros _ i p Habs. apply app_inv_head in Habs. inversion Habs.
  - intros _ Hle. apply leb_not_gtb in Hle. congruence.
  - intros _ i p Habs. apply app_inv_head in Habs. inversion Habs.
  - intros Heq. apply eqb_not_ltb in Heq. destruct Heq. congruence.
  - intros Hge. apply leb_not_gtb in Hge. congruence.
  - intros _ i p Habs. now apply app_one_neq in Habs.
  - intros _ i p Habs. now apply app_one_neq in Habs.
  - auto.
Qed.

Lemma boundaries_are_strict_witness :
  exists t s', loop_body initial 10 11 = (t, Ok s') /\
    (11 / 10 =? 1.1) = true /\
    messages s' = [] /\ errors s' = 0%nat.
Proof.
  eexists _, _. split; [reflexivity|]. split; [reflexivity|].
  pose proof (boundaries_are_strict initial _ 10 11 _ eq_refl)
    as (_ & _ & Hin).
  apply Hin; reflexivity.
Defined.

(** ** The whole loop *)

Lemma classify_errors (i : nat) (b l r : float) (errs : nat)
    (msgs : list text) :
  fst (classify i b l r errs msgs) =
    (errs + (if too_slow b l then 1 else 0))%nat.
Proof.
  unfold classify. cbv zeta.
  destruct (too_slow b l); simpl; [lia|].
  destruct (1.1 <? r); simpl; [lia|].
  destruct (r <? 0.9); simpl; lia.
Qed.

Lemma classify_messages (i : nat) (b l r : float) (errs : nat)
    (msgs : list text) :
  exists added, snd (classify i b l r errs msgs) = msgs ++ added /\
    (List.length added <= 1)%nat.
Proof.
  destruct (classify_cases i b l r errs msgs)
    as [(_ & E)|[(_ & _ & E)|[(_ & _ & _ & E)|(_ & _ & _ & E)]]];
    cbv zeta in E; rewrite E; simpl.
  1-3: eexists; split; [reflexivity | simpl; lia].
  exists []. rewrite app_nil_r. split; [reflexivity | simpl; lia].
Qed.

(** What a completed loop has computed and printed. *)
Lemma compare_loop_ok_inv (pairs : list (float * float)) :
  forall (s s' : accumulators) (t : list event),
  compare_loop s pairs = (t, Ok s') ->
  Forall (fun p => (fst p =? 0) = false) pairs /\
  t = record_lines (n s) pairs /\
  n s' = (n s + List.length pairs)%nat /\
  errors s' = (errors s + hard_regressions pairs)%nat /\
  total_rel_dur s' = running_sum (total_rel_dur s) (ratios pairs) /\
  total_baseline s' = running_sum (total_baseline s) (map fst pairs) /\
  total_latest s' = running_sum (total_latest s) (map snd pairs) /\
  rel_dur s' = match pairs with
               | [] => rel_dur s
               | _ :: _ => Some (last (ratios pairs) 0)
               end /\
  exists added, messages s' = messages s ++ added /\
    (List.length added <= List.length pairs)%nat.
Proof.
  induction pairs as [|[b l] rest IH]; intros s s' t H.
  - simpl in H. inversion H; subst. unfold hard_regressions. simpl.
    repeat split; auto; try lia.
    exists []. now rewrite app_nil_r.
  - simpl in H. apply bind_ok_inv in H.
    destruct H as (t1 & s1 & t2 & Hbody & Hrest & ->).
    apply loop_body_ok_inv in Hbody.
    destruct Hbody as (Hb & -> & Hn & Hr & Htb & Htl & Htr & Hc).
    apply IH in Hrest.
    destruct Hrest as (Hall & -> & Hn' & He' & Htr' & Htb' & Htl' & Hr'
                       & added & Hm' & Hlen).
    pose proof (classify_errors (n s) b l (l / b) (errors s) (messages s))
      as Hce.
    destruct (classify_messages (n s) b l (l / b) (errors s) (messages s))
      as (added1 & Hcm & Hlen1).
    rewrite <- Hc in Hce, Hcm. simpl in Hce, Hcm.
    repeat split.
    + constructor; assumption.
    + simpl. now rewrite Hn.
    + simpl. lia.
    + rewrite He', Hce. unfold hard_regressions. simpl.
      destruct (too_slow b l); simpl; lia.
    + rewrite Htr', Htr. reflexivity.
    + rewrite Htb', Htb. reflexivity.
    + rewrite Htl', Htl. reflexivity.
    + rewrite Hr'. destruct rest as [|[b' l'] rest'].
      * simpl. exact Hr.
      * reflexivity.
    + exists (added1 ++ added). rewrite Hm', Hcm, app_assoc.
      split; [reflexivity|]. rewrite length_app. simpl. lia.
Qed.

(** The loop completes when no baseline is zero. *)
Lemma compare_loop_total (pairs : list (float * float)) :
  forall s : accumulators,
  Forall (fun p => (fst p =? 0) = false) pairs ->
  exists s', compare_loop s pairs = (record_lines (n s) pairs, Ok s').
Proof.
  induction pairs as [|[b l] rest IH]; intros s Hall.
  - exists s. reflexivity.
  - inversion Hall as [|p ps Hb Hrest]; subst. simpl in Hb.
    simpl. rewrite (loop_body_nonzero s b l Hb), bind_ok_l.
    match goal with |- context [compare_loop ?s1 rest] =>
      destruct (IH s1 Hrest) as (s' & E) end.
    exists s'. rewrite E. reflexivity.
Qed.

(** The loop raises nothing but [ZeroDivisionError], at the first zero
    baseline, after the lines of the records before it. *)
Lemma compare_loop_raise_inv (pairs : list (float * float)) :
  forall (s : accumulators) (t : list event) (e : exn),
  compare_loop s pairs = (t, Raise e) ->
  e = ZeroDivisionError /\
  exists k, (k < List.length pairs)%nat /\
    (fst (nth k pairs (0, 0)) =? 0) = true /\
    t = record_lines (n s) (firstn k pairs).
Proof.
  induction pairs as [|[b l] rest IH]; intros s t e H.
  - discriminate.
  - simpl in H. apply bind_raise_inv in H.
    destruct H as [H|(t1 & s1 & t2 & Hbody & Hrest & ->)].
    + destruct (b =? 0) eqn:Hb.
      * rewrite loop_body_zero in H by assumption. inversion H; subst.
        split; [reflexivity|]. exists 0%nat. simpl. auto with arith.
      * rewrite loop_body_nonzero in H by assumption. discriminate.
    + apply loop_body_ok_inv in Hbody.
      destruct Hbody as (Hb & -> & Hn & _).
      apply IH in Hrest. destruct Hrest as (-> & k & Hk & Hz & ->).
      split; [reflexivity|]. exists (S k). simpl.
      rewrite Hn. repeat split; auto with arith.
Qed.

(** C10: every iteration appends at most one message, so a completed loop
    over [pairs] has appended at most [length pairs] of them; before the
    two summary lines are added the message list of a run is no longer
    than the number [n] of benchmarks compared. *)
Theorem at_most_one_message_per_benchmark (s s' : accumulators)
    (pairs : list (float * float)) (t : list event) :
  compare_loop s pairs = (t, Ok s') ->
  n s' = (n s + List.length pairs)%nat /\
  (exists added, messages s' = messages s ++ added /\
     (List.length added <= List.length pairs)%nat) /\
  (s = initial -> (List.length (messages s') <= n s')%nat).
Proof.
  intros H. apply compare_loop_ok_inv in H.
  destruct H as (_ & _ & Hn & _ & _ & _ & _ & _ & added & Hm & Hlen).
  split; [exact Hn|]. split; [now exists added|].
  intros ->. rewrite Hm, Hn. simpl. lia.
Qed.

Lemma at_most_one_message_per_benchmark_witness :
  exists t s',
    compare_loop initial [(100, 121); (10, 10); (10, 8)] = (t, Ok s') /\
    n s' = 3%nat /\ (List.length (messages s') <= n s')%nat.
Proof.
  eexists _, _. split; [reflexivity|].
  pose proof (at_most_one_message_per_benchmark initial _
                [(100, 121); (10, 10); (10, 8)] _ eq_refl)
    as (Hn & _ & Hle).
  split; [exact Hn | exact (Hle eq_refl)].
Defined.

(** ** The phases of a run *)

Lemma read_arguments_trace (argv : list string) :
  trace (read_arguments argv) = [].
Proof.
  unfold read_arguments, argv_get.
  destruct argv as [|a0 [|a1 [|a2 [|a3 [|a4 [|a5 rest]]]]]]; reflexivity.
Qed.

Lemma read_arguments_raise (argv : list string) (e : exn) :
  outcome (read_arguments argv) = Raise e -> e = IndexError.
Proof.
  unfold read_arguments, argv_get.
  destruct argv as [|a0 [|a1 [|a2 [|a3 [|a4 [|a5 rest]]]]]]; simpl;
    intros H; inversion H; reflexivity.
Qed.

(** The pull-request number is [sys.argv[6]], or empty when absent. *)
Lemma read_arguments_ok (argv : list string) (a : arguments) :
  outcome (read_arguments argv) = Ok a ->
  pull_request_number a = nth 6 argv EmptyString /\
  nth_error argv 1 = Some (baseline_timing_file_1 a) /\
  nth_error argv 2 = Some (baseline_timing_file_2 a) /\
  nth_error argv 3 = Some (latest_timing_file_1 a) /\
  nth_error argv 4 = Some (latest_timing_file_2 a) /\
  nth_error argv 5 = Some (github_token a).
Proof.
  unfold read_arguments, argv_get.
  destruct argv as [|a0 [|a1 [|a2 [|a3 [|a4 [|a5 rest]]]]]]; simpl;
    intros H; inversion H; subst; simpl.
  destruct rest; simpl; repeat split; reflexivity.
Qed.

Lemma load_times_ok (w : World) (a : arguments) (b1 b2 l1 l2 : list float) :
  timing_file w (baseline_timing_file_1 a) = Some b1 ->
  timing_file w (baseline_timing_file_2 a) = Some b2 ->
  timing_file w (latest_timing_file_1 a) = Some l1 ->
  timing_file w (latest_timing_file_2 a) = Some l2 ->
  load_times w a = (reading_events a, Ok (fastest b1 b2, fastest l1 l2)).
Proof.
  intros H1 H2 H3 H4. unfold load_times, read_timing.
  rewrite H1, H2, H3, H4. reflexivity.
Qed.

(** Reading either yields the four sequences or raises [InputError]; it
    never touches the event payload or the network. *)
Lemma load_times_cases (w : World) (a : arguments) :
  (exists b1 b2 l1 l2,
     timing_file w (baseline_timing_file_1 a) = Some b1 /\
     timing_file w (baseline_timing_file_2 a) = Some b2 /\
     timing_file w (latest_timing_file_1 a) = Some l1 /\
     timing_file w (latest_timing_file_2 a) = Some l2 /\
     load_times w a = (reading_events a, Ok (fastest b1 b2, fastest l1 l2))) \/
  (exists t, load_times w a = (t, Raise InputError) /\
     forallb offline t = true).
Proof.
  unfold load_times, read_timing.
  destruct (timing_file w (baseline_timing_file_1 a)) as [b1|] eqn:H1;
    [|right; eexists; split; reflexivity].
  destruct (timing_file w (baseline_timing_file_2 a)) as [b2|] eqn:H2;
    [|right; eexists; split; reflexivity].
  destruct (timing_file w (latest_timing_file_1 a)) as [l1|] eqn:H3;
    [|right; eexists; split; reflexivity].
  destruct (timing_file w (latest_timing_file_2 a)) as [l2|] eqn:H4;
    [|right; eexists; split; reflexivity].
  left. exists b1, b2, l1, l2. repeat split; reflexivity.
Qed.

Lemma load_times_ok_inv (w : World) (a : arguments) t bs ls :
  load_times w a = (t, Ok (bs, ls)) ->
  exists b1 b2 l1 l2,
    timing_file w (baseline_timing_file_1 a) = Some b1 /\
    timing_file w (baseline_timing_file_2 a) = Some b2 /\
    timing_file w (latest_timing_file_1 a) = Some l1 /\
    timing_file w (latest_timing_file_2 a) = Some l2 /\
    t = reading_events a /\ bs = fastest b1 b2 /\ ls = fastest l1 l2.
Proof.
  intros H.
  destruct (load_times_cases w a)
    as [(b1 & b2 & l1 & l2 & H1 & H2 & H3 & H4 & E)|(t' & E & _)];
    rewrite E in H; inversion H; subst.
  exists b1, b2, l1, l2. repeat split; assumption.
Qed.

Lemma record_lines_offline (pairs : list (float * float)) :
  forall i, forallb offline (record_lines i pairs) = true.
Proof.
  induction pairs as [|[b l] rest IH]; intros i; simpl; auto.
Qed.

Lemma record_lines_length (pairs : list (float * float)) :
  forall i, List.length (record_lines i pairs) = List.length pairs.
Proof.
  induction pairs as [|[b l] rest IH]; intros i; simpl; auto.
Qed.

(** The summary either raises before printing anything, or prints the two
    lines, the first of which shows the last ratio three times. *)
Lemma summarize_cases (s : accumulators) :
  ((float_of_int (n s) =? 0) = true /\
   summarize s = ([], Raise ZeroDivisionError)) \/
  ((float_of_int (n s) =? 0) = false /\ rel_dur s = None /\
   summarize s = ([], Raise NameError)) \/
  (exists r, (float_of_int (n s) =? 0) = false /\ rel_dur s = Some r /\
     let mean := total_rel_dur s / float_of_int (n s) in
     let mean_perc := 100 * (mean - 1) in
     summarize s =
       ([Print (ratio_line r r r);
         Print (totals_line (total_baseline s) (total_latest s))],
        Ok (mean,
            if 0 <? mean_perc then [Fixed 1 mean_perc; Lit "% slower"]
            else [Fixed 1 (- mean_perc); Lit "% faster"]))).
Proof.
  unfold summarize, truediv.
  destruct (float_of_int (n s) =? 0) eqn:Hz; [now left|right].
  destruct (rel_dur s) as [r|] eqn:Hr; [right|left].
  - exists r. repeat split; reflexivity.
  - repeat split; reflexivity.
Qed.

(** With no pull-request number [send_comment] does nothing at all. *)
Lemma send_comment_skipped (w : World) (message : text) (token : string) :
  send_comment w message token EmptyString = ([], Ok tt).
Proof. reflexivity. Qed.

(** Otherwise it looks up the event path, reads the payload, posts, prints
    the message and checks the status, stopping at the first step that
    raises. *)
Lemma send_comment_cases (w : World) (message : text)
    (token pr : string) :
  String.eqb pr EmptyString = false ->
  (github_event_path w = None /\
   send_comment w message token pr = ([], Raise TypeError)) \/
  (event_sha w = None /\
   send_comment w message token pr =
     ([ReadEventPayload], Raise EventPayloadError)) \/
  (exists sha rq, event_sha w = Some sha /\ body rq = message /\
     commit_id rq = sha /\
     ((post_response w rq = None /\
       send_comment w message token pr =
         ([ReadEventPayload; HttpPost rq], Raise ConnectionError)) \/
      (post_response w rq = Some false /\
       send_comment w message token pr =
         ([ReadEventPayload; HttpPost rq; Print message], Raise HTTPError)) \/
      (post_response w rq = Some true /\
       send_comment w message token pr =
         ([ReadEventPayload; HttpPost rq; Print message], Ok tt)))).
Proof.
  intros Hpr. unfold send_comment. rewrite Hpr.
  destruct (github_event_path w) as [p|] eqn:Hpath; [right|now left].
  destruct (event_sha w) as [sha|] eqn:Hsha; [right|now left].
  cbv beta iota zeta delta [bind ret emit].
  set (rq := {| url :=
                  String.append
                    "https://api.github.com/repos/returntocorp/semgrep/issues/"
                    (String.append pr "/comments");
                authorization := String.append "Token " token;
                accept := "application/vnd.github.comfort-fade-preview+json";
                body := message; commit_id := sha |}).
  exists sha, rq. split; [reflexivity|].
  split; [reflexivity|]. split; [reflexivity|].
  destruct (post_response w rq) as [[|]|].
  - right; right. split; reflexivity.
  - right; left. split; reflexivity.
  - left. split; reflexivity.
Qed.

Lemma notify_empty (w : World) (a : arguments) (s : accumulators)
    (str : text) :
  messages s = [] -> notify w a s str = ([], Ok tt).
Proof. intros H. unfold notify. now rewrite H. Qed.

Lemma notify_nonempty (w : World) (a : arguments) (s : accumulators)
    (str : text) :
  messages s <> [] ->
  let msg := comment_text s str in
  let sent := send_comment w msg (github_token a) (pull_request_number a) in
  notify w a s str =
    (Print (Lit "Sending warnings and errors as a PR comment:"
              :: Lit newline :: msg) :: trace sent,
     outcome sent).
Proof.
  intros H. cbv zeta. unfold notify.
  destruct (messages s) as [|m ms]; [congruence|].
  unfold bind, emit.
  destruct (send_comment w (comment_text s str) (github_token a)
              (pull_request_number a)) as [ts rs].
  reflexivity.
Qed.

(** Without a pull-request number the notification step cannot raise and
    does nothing beyond printing the comment text. *)
Lemma notify_no_pr (w : World) (a : arguments) (s : accumulators)
    (str : text) :
  pull_request_number a = EmptyString ->
  outcome (notify w a s str) = Ok tt /\
  forallb offline (trace (notify w a s str)) = true /\
  forall w', notify w' a s str = notify w a s str.
Proof.
  intros Hpr. unfold notify. rewrite Hpr.
  destruct (messages s) as [|m ms]; repeat split; reflexivity.
Qed.

(** The notification step raises only from within [send_comment], hence
    only when there is a message and a pull-request number. *)
Lemma notify_raise (w : World) (a : arguments) (s : accumulators)
    (str : text) (e : exn) :
  outcome (notify w a s str) = Raise e ->
  (e = TypeError \/ e = EventPayloadError \/ e = ConnectionError \/
   e = HTTPError) /\
  messages s <> [] /\ pull_request_number a <> EmptyString.
Proof.
  intros H.
  destruct (messages s) as [|m ms] eqn:Hm.
  - rewrite notify_empty in H by assumption. discriminate.
  - assert (Hne : messages s <> []) by congruence.
    rewrite (notify_nonempty w a s str Hne) in H. cbv zeta in H.
    unfold outcome at 1 in H. simpl in H. rewrite <- Hm.
    destruct (String.eqb (pull_request_number a) EmptyString) eqn:Hpr.
    + apply String.eqb_eq in Hpr. rewrite Hpr in H. discriminate.
    + split; [|split; [exact Hne|]].
      * destruct (send_comment_cases w (comment_text s str) (github_token a)
                    (pull_request_number a) Hpr)
          as [(_ & E)|[(_ & E)|(sha & rq & _ & _ & _ &
                [(_ & E)|[(_ & E)|(_ & E)]])]];
          rewrite E in H; inversion H; auto.
      * intros Habs. rewrite Habs in Hpr. discriminate.
Qed.

Lemma verdict_trace (s : accumulators) (mean : float) :
  trace (verdict s mean) = [].
Proof.
  unfold verdict, py_assert.
  destruct (errors s =? 0)%nat, (mean <? 1.06); reflexivity.
Qed.

(** The assertions fail exactly on a recorded error or on a mean that is
    not below 1.06. *)
Lemma verdict_cases (s : accumulators) (mean : float) :
  verdict s mean =
    ([], if (errors s =? 0)%nat && (mean <? 1.06) then Ok tt
         else Raise AssertionError).
Proof.
  unfold verdict, py_assert.
  destruct (errors s =? 0)%nat, (mean <? 1.06); reflexivity.
Qed.

(** A run whose comparison and summary complete: what it has done when the
    notification step ends, and how it ends. *)
Lemma main_run (w : World) (argv : list string) (a : arguments)
    (bs ls : list float) (t0 t1 t2 : list event) (s : accumulators)
    (mean : float) (str : text) :
  outcome (read_arguments argv) = Ok a ->
  load_times w a = (t0, Ok (bs, ls)) ->
  compare bs ls = (t1, Ok s) ->
  summarize s = (t2, Ok (mean, str)) ->
  report w argv =
    (t0 ++ t1 ++ t2 ++ trace (notify w a s str),
     match outcome (notify w a s str) with
     | Ok _ => Ok (s, mean)
     | Raise e => Raise e
     end) /\
  main w argv =
    (t0 ++ t1 ++ t2 ++ trace (notify w a s str),
     match outcome (notify w a s str) with
     | Ok _ => outcome (verdict s mean)
     | Raise e => Raise e
     end).
Proof.
  intros Ha Hl Hc Hs.
  assert (Hr : report w argv =
    (t0 ++ t1 ++ t2 ++ trace (notify w a s str),
     match outcome (notify w a s str) with
     | Ok _ => Ok (s, mean)
     | Raise e => Raise e
     end)).
  { unfold report.
    rewrite (run_eta (read_arguments argv)), read_arguments_trace, Ha.
    rewrite bind_ok_l, Hl, bind_ok_l. cbn [fst snd].
    rewrite Hc, bind_ok_l, Hs, bind_ok_l. cbn [fst snd].
    destruct (notify w a s str) as [tn [[]|e]];
      unfold trace, outcome, bind, ret; simpl; rewrite ?app_nil_r;
      reflexivity. }
  split; [exact Hr|].
  unfold main. rewrite Hr.
  destruct (notify w a s str) as [tn [[]|e]]; simpl; [|reflexivity].
  rewrite verdict_cases. simpl. now rewrite !app_nil_r.
Qed.

Lemma bind_ext {A B} (m : M A) (f g : A -> M B) :
  (forall a, f a = g a) -> bind m f = bind m g.
Proof. intros H. unfold bind. destruct m as [t [a|e]]; now rewrite ?H. Qed.

Lemma main_of_report_raise (w : World) (argv : list string) t e :
  report w argv = (t, Raise e) -> main w argv = (t, Raise e).
Proof. intros H. unfold main. now rewrite H. Qed.

(** Every run stops in exactly one of five places. *)
Lemma report_cases (w : World) (argv : list string) :
  (outcome (read_arguments argv) = Raise IndexError /\
   report w argv = ([], Raise IndexError)) \/
  (exists a, outcome (read_arguments argv) = Ok a /\
   ((exists t, load_times w a = (t, Raise InputError) /\
       forallb offline t = true /\
       report w argv = (t, Raise InputError)) \/
    (exists bs ls, load_times w a = (reading_events a, Ok (bs, ls)) /\
     ((exists t1, compare bs ls = (t1, Raise ZeroDivisionError) /\
         forallb offline t1 = true /\
         report w argv = (reading_events a ++ t1, Raise ZeroDivisionError)) \/
      (exists s, compare bs ls = (record_lines 0 (combine bs ls), Ok s) /\
       ((exists e, summarize s = ([], Raise e) /\
           (e = ZeroDivisionError \/ e = NameError) /\
           report w argv =
             (reading_events a ++ record_lines 0 (combine bs ls), Raise e)) \/
        (exists t2 mean str, summarize s = (t2, Ok (mean, str)) /\
           forallb offline t2 = true /\
           report w argv =
             (reading_events a ++ record_lines 0 (combine bs ls) ++ t2
                ++ trace (notify w a s str),
              match outcome (notify w a s str) with
              | Ok _ => Ok (s, mean)
              | Raise e => Raise e
              end) /\
           main w argv =
             (reading_events a ++ record_lines 0 (combine bs ls) ++ t2
                ++ trace (notify w a s str),
              match outcome (notify w a s str) with
              | Ok _ => outcome (verdict s mean)
              | Raise e => Raise e
              end)))))))).
Proof.
  destruct (outcome (read_arguments argv)) as [a|e] eqn:Ha.
  2:{ left. pose proof (read_arguments_raise argv e Ha) as ->.
      split; [reflexivity|]. unfold report.
      rewrite (run_eta (read_arguments argv)), read_arguments_trace, Ha.
      reflexivity. }
  right. exists a. split; [reflexivity|].
  assert (Hargs : read_arguments argv = ([], Ok a)).
  { now rewrite (run_eta (read_arguments argv)), read_arguments_trace, Ha. }
  destruct (load_times_cases w a)
    as [(b1 & b2 & l1 & l2 & _ & _ & _ & _ & Hl)|(t & Hl & Hoff)].
  2:{ left. exists t. repeat split; auto.
      unfold report. rewrite Hargs, bind_ok_l, Hl. reflexivity. }
  right. exists (fastest b1 b2), (fastest l1 l2). split; [exact Hl|].
  set (bs := fastest b1 b2) in *. set (ls := fastest l1 l2) in *.
  destruct (compare bs ls) as [t1 [s|e]] eqn:Hc.
  2:{ left. unfold compare in Hc.
      pose proof (compare_loop_raise_inv _ _ _ _ Hc)
        as (-> & k & _ & _ & ->).
      eexists. split; [reflexivity|].
      split; [apply record_lines_offline|].
      unfold report. rewrite Hargs, bind_ok_l, Hl, bind_ok_l. cbn [fst snd].
      unfold compare. rewrite Hc. reflexivity. }
  right. exists s.
  assert (Ht1 : t1 = record_lines 0 (combine bs ls)).
  { unfold compare in Hc. now apply compare_loop_ok_inv in Hc. }
  subst t1. split; [reflexivity|].
  destruct (summarize_cases s)
    as [(_ & Hs)|[(_ & _ & Hs)|(r & _ & _ & Hs)]].
  - left. exists ZeroDivisionError. repeat split; auto.
    unfold report. rewrite Hargs, bind_ok_l, Hl, bind_ok_l. cbn [fst snd].
    rewrite Hc, bind_ok_l, Hs. simpl. now rewrite app_nil_r.
  - left. exists NameError. repeat split; auto.
    unfold report. rewrite Hargs, bind_ok_l, Hl, bind_ok_l. cbn [fst snd].
    rewrite Hc, bind_ok_l, Hs. simpl. now rewrite app_nil_r.
  - right. cbv zeta in Hs. eexists _, _, _. split; [exact Hs|].
    split; [reflexivity|].
    apply (main_run w argv a bs ls _ _ _ s _ _ Ha Hl Hc Hs).
Qed.

(** ** The verdict *)

Lemma threshold_is_a_number : is_nan 1.06 = false.
Proof. reflexivity. Qed.

(** The second assertion fails when the mean is at least 1.06, and also
    when it is not a number. *)
Lemma mean_assertion_fails_iff (mean : float) :
  (mean <? 1.06) = false <-> (1.06 <=? mean) = true \/ is_nan mean = true.
Proof.
  rewrite ltb_false_iff. rewrite threshold_is_a_number.
  split; [intros [H|[H|H]]|intros [H|H]]; auto. discriminate.
Qed.

Lemma verdict_fails_iff (s : accumulators) (mean : float) :
  fails (verdict s mean) <->
  (0 < errors s)%nat \/ (1.06 <=? mean) = true \/ is_nan mean = true.
Proof.
  rewrite verdict_cases, <- mean_assertion_fails_iff. unfold fails. simpl.
  destruct (errors s =? 0)%nat eqn:He.
  - apply Nat.eqb_eq in He.
    destruct (mean <? 1.06); simpl; split; auto; try tauto.
    intros [H|H]; [lia|discriminate].
  - apply Nat.eqb_neq in He. simpl. split; auto. intros _. left. lia.
Qed.

Lemma verdict_raises_assertion (s : accumulators) (mean : float) :
  fails (verdict s mean) -> outcome (verdict s mean) = Raise AssertionError.
Proof.
  rewrite verdict_cases. unfold fails. simpl.
  destruct ((errors s =? 0)%nat && (mean <? 1.06)); simpl; tauto.
Qed.

(** What the state and the mean handed to the verdict are: the error count
    is the number of hard regressions among the compared pairs, and the mean
    is the running sum of their ratios divided by their number. *)
Lemma report_ok_inv (w : World) (argv : list string) (s : accumulators)
    (mean : float) :
  outcome (report w argv) = Ok (s, mean) ->
  exists a bs ls str,
    outcome (read_arguments argv) = Ok a /\
    load_times w a = (reading_events a, Ok (bs, ls)) /\
    compare bs ls = (record_lines 0 (combine bs ls), Ok s) /\
    outcome (summarize s) = Ok (mean, str) /\
    outcome (notify w a s str) = Ok tt /\
    errors s = hard_regressions (combine bs ls) /\
    n s = List.length (combine bs ls) /\
    mean = running_sum 0 (ratios (combine bs ls)) / float_of_int (n s).
Proof.
  intros H.
  destruct (report_cases w argv)
    as [(_ & E)|(a & Ha & [(t & _ & _ & E)|(bs & ls & Hl &
         [(t1 & _ & _ & E)|(s' & Hc &
           [(e & _ & _ & E)|(t2 & mean' & str & Hs & _ & E & _)])])])];
    rewrite E in H; try discriminate.
  unfold outcome at 1 in H. simpl in H.
  destruct (outcome (notify w a s' str)) as [[]|e] eqn:Hn; [|discriminate].
  inversion H; subst s' mean'. clear H.
  exists a, bs, ls, str. repeat split; auto.
  - now rewrite Hs.
  - unfold compare in Hc. now apply compare_loop_ok_inv in Hc.
  - unfold compare in Hc. now apply compare_loop_ok_inv in Hc.
  - destruct (summarize_cases s)
      as [(_ & Hs')|[(_ & _ & Hs')|(r & _ & _ & Hs')]];
      rewrite Hs' in Hs; inversion Hs.
    unfold compare in Hc. apply compare_loop_ok_inv in Hc.
    destruct Hc as (_ & _ & _ & _ & Htr & _). now rewrite Htr.
Qed.


(** An aggregate-only regression: five benchmarks, each 6.1% slower, none
    of them a hard regression. *)
Example aggregate_only_regression :
  let baseline := [1000; 1000; 1000; 1000; 1000] in
  let latest := [1061; 1061; 1061; 1061; 1061] in
  hard_regressions (combine baseline latest) = 0%nat /\
  outcome (main (sample_world baseline latest true) argv_no_pr)
    = Raise AssertionError.
Proof. split; reflexivity. Qed.

(** A mean that is not a number fails the second assertion although it is
    not at least 1.06. *)
Example nan_mean_fails :
  outcome (main (sample_world [infinity] [infinity] true) argv_no_pr)
    = Raise AssertionError /\
  (1.06 <=? infinity / infinity) = false.
Proof. split; reflexivity. Qed.

(** ** The printed report *)

Lemma record_lines_nth (pairs : list (float * float)) :
  forall k i b l,
  nth_error pairs i = Some (b, l) ->
  nth_error (record_lines k pairs) i =
    Some (Print (record_line (k + i) (l / b) b l)).
Proof.
  induction pairs as [|[b0 l0] rest IH]; intros k i b l H.
  - destruct i; discriminate.
  - destruct i as [|i]; simpl in *.
    + inversion H; subst. now rewrite Nat.add_0_r.
    + rewrite (IH (S k) i b l H). do 3 f_equal. lia.
Qed.

(** The output of a run whose comparison and summary complete, in terms of
    the lines the script builds. *)
Lemma report_lines_built (w : World) (argv : list string) (a : arguments)
    (bs ls : list float) (t0 t1 t2 : list event) (s : accumulators)
    (mean : float) (str : text) :
  outcome (read_arguments argv) = Ok a ->
  load_times w a = (t0, Ok (bs, ls)) ->
  compare bs ls = (t1, Ok s) ->
  summarize s = (t2, Ok (mean, str)) ->
  let pairs := combine bs ls in
  let last_ratio := last (ratios pairs) 0 in
  t1 = record_lines 0 pairs /\
  t2 = [Print (ratio_line last_ratio last_ratio last_ratio);
        Print (totals_line (running_sum 0 (map fst pairs))
                 (running_sum 0 (map snd pairs)))] /\
  trace (main w argv) = t0 ++ t1 ++ t2 ++ trace (notify w a s str).
Proof.
  intros Ha Hl Hc Hs. cbv zeta.
  pose proof (main_run w argv a bs ls t0 t1 t2 s mean str Ha Hl Hc Hs)
    as (_ & Hmain).
  unfold compare in Hc. apply compare_loop_ok_inv in Hc.
  destruct Hc as (_ & Ht1 & _ & _ & _ & Htb & Htl & Hr & _).
  split; [exact Ht1|]. split.
  - destruct (summarize_cases s)
      as [(_ & Hs')|[(_ & _ & Hs')|(r & _ & Hr' & Hs')]];
      rewrite Hs' in Hs; inversion Hs.
    rewrite Htb, Htl. rewrite Hr' in Hr.
    destruct (combine bs ls) as [|p ps]; [discriminate|].
    inversion Hr. reflexivity.
  - rewrite Hmain. reflexivity.
Qed.

(** C4: for a run whose comparison and summary complete, the output after
    the four reading lines is one line per record, in order: the line of
    record [i] shows [i] in brackets, its ratio followed by "x", and after
    "Baseline:" and "Latest:" the two raw values, all three numbers with
    three decimals. Then comes the line whose Average, Min and Max fields
    all show the ratio of the last record with three decimals; then the line
    with the two totals, which are the running sums of the reduced baseline
    and latest times. The tracked mean, minimum and maximum are not what
    that line shows: for baselines of 10 and latest times 8, 13 and 10 it
    shows the ratio 1 three times, while the mean, the minimum and the
    maximum all differ from 1. *)
Theorem report_lines (w : World) (argv : list string) (a : arguments)
    (bs ls : list float) (t0 t1 t2 : list event) (s : accumulators)
    (mean : float) (str : text) :
  outcome (read_arguments argv) = Ok a ->
  load_times w a = (t0, Ok (bs, ls)) ->
  compare bs ls = (t1, Ok s) ->
  summarize s = (t2, Ok (mean, str)) ->
  let pairs := combine bs ls in
  let last_ratio := last (ratios pairs) 0 in
  List.length t1 = List.length pairs /\
  (forall i b l, nth_error pairs i = Some (b, l) ->
     nth_error t1 i =
       Some (Print [Lit "["; IntF i; Lit "] "; Fixed 3 (l / b);
                    Lit "x Baseline: "; Fixed 3 b; Lit ", Latest: ";
                    Fixed 3 l])) /\
  t2 = [Print [Lit "Average: "; Fixed 3 last_ratio; Lit "x, Min: ";
               Fixed 3 last_ratio; Lit "x, Max: "; Fixed 3 last_ratio;
               Lit "x"];
        Print [Lit "Total Baseline: ";
               ReprF (running_sum 0 (map fst pairs));
               Lit " s, Latest: ";
               ReprF (running_sum 0 (map snd pairs)); Lit " s"]] /\
  trace (main w argv) = t0 ++ t1 ++ t2 ++ trace (notify w a s str) /\
  (exists t3 s3 t4 mean3 str3,
     compare [10; 10; 10] [8; 13; 10] = (t3, Ok s3) /\
     summarize s3 = (t4, Ok (mean3, str3)) /\
     t4 = [Print [Lit "Average: "; Fixed 3 1; Lit "x, Min: "; Fixed 3 1;
                  Lit "x, Max: "; Fixed 3 1; Lit "x"];
           Print [Lit "Total Baseline: "; ReprF 30; Lit " s, Latest: ";
                  ReprF 31; Lit " s"]] /\
     (mean3 =? 1) = false /\
     (min_rel_dur s3 =? 1) = false /\
     (max_rel_dur s3 =? 1) = false).
Proof.
  intros Ha Hl Hc Hs. cbv zeta.
  destruct (report_lines_built w argv a bs ls t0 t1 t2 s mean str
              Ha Hl Hc Hs) as (Ht1 & Ht2 & Hmain).
  split; [rewrite Ht1; apply record_lines_length|].
  split.
  { intros i b l Hi. rewrite Ht1.
    exact (record_lines_nth (combine bs ls) 0 i b l Hi). }
  split; [exact Ht2|]. split; [exact Hmain|].
  eexists _, _, _, _, _. split; [reflexivity|].
  split; [reflexivity|]. split; [reflexivity|].
  repeat split; reflexivity.
Qed.

Lemma report_lines_witness :
  let w := sample_world [10; 10; 10] [8; 13; 10] true in
  exists s mean str t1 t2,
    compare [10; 10; 10] [8; 13; 10] = (t1, Ok s) /\
    summarize s = (t2, Ok (mean, str)) /\
    nth_error t1 1 =
      Some (Print [Lit "["; IntF 1; Lit "] "; Fixed 3 (13 / 10);
                   Lit "x Baseline: "; Fixed 3 10; Lit ", Latest: ";
                   Fixed 3 13]) /\
    t2 = [Print [Lit "Average: "; Fixed 3 1; Lit "x, Min: "; Fixed 3 1;
                 Lit "x, Max: "; Fixed 3 1; Lit "x"];
          Print [Lit "Total Baseline: "; ReprF 30; Lit " s, Latest: ";
                 ReprF 31; Lit " s"]] /\
    trace (main w argv_no_pr)
      = reading_events (sample_arguments EmptyString) ++ t1 ++ t2
          ++ trace (notify w (sample_arguments EmptyString) s str).
Proof.
  cbv zeta. eexists _, _, _, _, _.
  split; [reflexivity|]. split; [reflexivity|].
  destruct (report_lines (sample_world [10; 10; 10] [8; 13; 10] true)
              argv_no_pr (sample_arguments EmptyString)
              [10; 10; 10] [8; 13; 10] _ _ _ _ _ _
              eq_refl eq_refl eq_refl eq_refl)
    as (_ & Hnth & Ht2 & Hmain & _).
  split; [exact (Hnth 1%nat 10 13 eq_refl)|].
  split; [exact Ht2 | exact Hmain].
Defined.

(** ** Failing after the report *)

(** C5: a run that ends with the assertion error has read its input,
    printed every record line and both summary lines, and completed the
    notification step (which, when there are messages and a pull-request
    number, has posted the comment and got a success status) before the
    assertions ran; the assertions add nothing to the output and come
    last. *)
Theorem failure_comes_last (w : World) (argv : list string) :
  outcome (main w argv) = Raise AssertionError ->
  exists a bs ls s mean str r,
    outcome (read_arguments argv) = Ok a /\
    load_times w a = (reading_events a, Ok (bs, ls)) /\
    compare bs ls = (record_lines 0 (combine bs ls), Ok s) /\
    summarize s =
      ([Print (ratio_line r r r);
        Print (totals_line (total_baseline s) (total_latest s))],
       Ok (mean, str)) /\
    outcome (notify w a s str) = Ok tt /\
    report w argv = (trace (main w argv), Ok (s, mean)) /\
    verdict s mean = ([], Raise AssertionError) /\
    (errors s <> 0%nat \/ (mean <? 1.06) = false) /\
    trace (main w argv) =
      reading_events a ++ record_lines 0 (combine bs ls)
        ++ [Print (ratio_line r r r);
            Print (totals_line (total_baseline s) (total_latest s))]
        ++ trace (notify w a s str) /\
    (messages s <> [] ->
     exists sent,
       trace (notify w a s str) =
         Print (Lit "Sending warnings and errors as a PR comment:"
                  :: Lit newline :: comment_text s str) :: sent /\
       (pull_request_number a <> EmptyString ->
        exists rq, sent = [ReadEventPayload; HttpPost rq;
                           Print (comment_text s str)] /\
          body rq = comment_text s str /\
          post_response w rq = Some true)).
Proof.
  intros H.
  destruct (report_cases w argv)
    as [(_ & E)|(a & Ha & [(t & _ & _ & E)|(bs & ls & Hl &
         [(t1 & _ & _ & E)|(s & Hc &
           [(e & _ & [-> | ->] & E)|(t2 & mean & str & Hs & _ & E & Em)])])])];
    try (apply main_of_report_raise in E; rewrite E in H; discriminate).
  rewrite Em in H. unfold outcome at 1 in H. cbn [snd] in H.
  destruct (outcome (notify w a s str)) as [[]|e] eqn:Hn.
  2:{ apply notify_raise in Hn. inversion H; subst e.
      destruct Hn as ([Hn|[Hn|[Hn|Hn]]] & _); discriminate. }
  assert (Ht2 : exists r, t2 = [Print (ratio_line r r r);
                    Print (totals_line (total_baseline s) (total_latest s))]).
  { destruct (summarize_cases s)
      as [(_ & Hs')|[(_ & _ & Hs')|(r & _ & Hr & Hs')]];
      rewrite Hs' in Hs; inversion Hs. now exists r. }
  destruct Ht2 as (r & ->).
  exists a, bs, ls, s, mean, str, r.
  split; [exact Ha|]. split; [exact Hl|]. split; [exact Hc|].
  split; [exact Hs|]. split; [exact Hn|].
  split; [rewrite E, Em; reflexivity|].
  split; [rewrite (run_eta (verdict s mean)), verdict_trace, H; reflexivity|].
  split.
  { rewrite verdict_cases in H. cbn [outcome snd] in H.
    destruct (errors s =? 0)%nat eqn:He; [|left; now apply Nat.eqb_neq].
    destruct (mean <? 1.06); [discriminate|now right]. }
  split; [rewrite Em; reflexivity|].
  intros Hne. pose proof (notify_nonempty w a s str Hne) as Hnot.
  cbv zeta in Hnot. rewrite Hnot. eexists. split; [reflexivity|].
  intros Hpr.
  assert (Hpr' : String.eqb (pull_request_number a) EmptyString = false).
  { apply String.eqb_neq. exact Hpr. }
  rewrite Hnot in Hn. unfold outcome at 1 in Hn. cbn [snd] in Hn.
  destruct (send_comment_cases w (comment_text s str) (github_token a)
              (pull_request_number a) Hpr')
    as [(_ & Es)|[(_ & Es)|(sha & rq & _ & Hbody & _ &
          [(_ & Es)|[(_ & Es)|(Hp & Es)]])]];
    rewrite Es in Hn; try discriminate.
  exists rq. rewrite Es. repeat split; auto.
Qed.

Lemma failure_comes_last_witness :
  exists a bs ls s mean str r,
    outcome (read_arguments argv_pr) = Ok a /\
    load_times (sample_world [100] [121] true) a
      = (reading_events a, Ok (bs, ls)) /\
    compare bs ls = (record_lines 0 (combine bs ls), Ok s) /\
    errors s = 1%nat /\
    verdict s mean = ([], Raise AssertionError) /\
    trace (main (sample_world [100] [121] true) argv_pr) =
      reading_events a ++ record_lines 0 (combine bs ls)
        ++ [Print (ratio_line r r r);
            Print (totals_line (total_baseline s) (total_latest s))]
        ++ trace (notify (sample_world [100] [121] true) a s str).
Proof.
  destruct (failure_comes_last (sample_world [100] [121] true) argv_pr
              eq_refl)
    as (a & bs & ls & s & mean & str & r & Ha & Hl & Hc & _ & _ & _ & Hv
        & _ & Ht & _).
  exists a, bs, ls, s, mean, str, r.
  split; [exact Ha|]. split; [exact Hl|]. split; [exact Hc|].
  split; [|split; [exact Hv | exact Ht]].
  inversion Ha; subst a. inversion Hl; subst bs ls.
  inversion Hc. reflexivity.
Defined.

(** ** Empty input *)

(** C6: when the comparison ends with [n = 0], no record line has been
    printed, computing the mean raises the division error, and that is how
    the run ends: the exception comes from the part of [main] before the
    assertions, with nothing printed after the reading lines. *)
Theorem empty_input_division_error (w : World) (argv : list string)
    (a : arguments) (bs ls : list float) (t0 t1 : list event)
    (s : accumulators) :
  outcome (read_arguments argv) = Ok a ->
  load_times w a = (t0, Ok (bs, ls)) ->
  compare bs ls = (t1, Ok s) ->
  n s = 0%nat ->
  t1 = [] /\
  summarize s = ([], Raise ZeroDivisionError) /\
  report w argv = (reading_events a, Raise ZeroDivisionError) /\
  main w argv = (reading_events a, Raise ZeroDivisionError).
Proof.
  intros Ha Hl Hc Hn.
  assert (Hs : summarize s = ([], Raise ZeroDivisionError)).
  { unfold summarize, truediv. rewrite Hn. reflexivity. }
  assert (Ht1 : t1 = []).
  { unfold compare in Hc. apply compare_loop_ok_inv in Hc.
    destruct Hc as (_ & -> & Hlen & _). simpl in Hlen.
    destruct (combine bs ls); [reflexivity|]. simpl in Hlen. lia. }
  apply load_times_ok_inv in Hl as Hl'.
  destruct Hl' as (b1 & b2 & l1 & l2 & _ & _ & _ & _ & Ht0 & _ & _).
  subst t0 t1.
  assert (Hr : report w argv = (reading_events a, Raise ZeroDivisionError)).
  { unfold report.
    rewrite (run_eta (read_arguments argv)), read_arguments_trace, Ha.
    rewrite bind_ok_l, Hl, bind_ok_l. cbn [fst snd].
    rewrite Hc, bind_ok_l, Hs. simpl. reflexivity. }
  repeat split; auto. now apply main_of_report_raise.
Qed.

Lemma empty_input_division_error_witness :
  main (sample_world [] [] true) argv_no_pr
    = (reading_events (sample_arguments EmptyString),
       Raise ZeroDivisionError).
Proof.
  exact (proj2 (proj2 (proj2
    (empty_input_division_error (sample_world [] [] true) argv_no_pr
       (sample_arguments EmptyString) [] [] _ [] initial
       eq_refl eq_refl eq_refl eq_refl)))).
Defined.

(** ** Runs without a pull-request number *)

Lemma trace_offline_app (t1 t2 : list event) :
  forallb offline t1 = true -> forallb offline t2 = true ->
  forallb offline (t1 ++ t2) = true.
Proof. intros H1 H2. now rewrite forallb_app, H1, H2. Qed.

Lemma reading_events_offline (a : arguments) :
  forallb offline (reading_events a) = true.
Proof. reflexivity. Qed.

(** C7: when the pull-request number is empty (or [sys.argv] has no
    seventh entry), the run performs no HTTP request and does not read the
    event payload, whatever messages were produced; it behaves the same in
    every world with the same timing files; and once the comparison and the
    summary have completed it fails exactly when the error count is
    positive or the mean is not below 1.06 (at least 1.06, or not a
    number). *)
Theorem no_pull_request_no_http (w : World) (argv : list string) :
  nth 6 argv EmptyString = EmptyString ->
  (forall ev, In ev (trace (main w argv)) ->
     is_http_post ev = false /\ is_event_read ev = false) /\
  (forall w', (forall p, timing_file w' p = timing_file w p) ->
     main w' argv = main w argv) /\
  (forall a bs ls t0 t1 t2 s mean str,
     outcome (read_arguments argv) = Ok a ->
     load_times w a = (t0, Ok (bs, ls)) ->
     compare bs ls = (t1, Ok s) ->
     summarize s = (t2, Ok (mean, str)) ->
     outcome (main w argv) = outcome (verdict s mean) /\
     (fails (main w argv) <->
      (0 < errors s)%nat \/ (1.06 <=? mean) = true \/ is_nan mean = true)).
Proof.
  intros Hpr.
  assert (Hpr' : forall a, outcome (read_arguments argv) = Ok a ->
                   pull_request_number a = EmptyString).
  { intros a Ha. apply read_arguments_ok in Ha. destruct Ha as (-> & _).
    exact Hpr. }
  split; [|split].
  - assert (Hoff : forallb offline (trace (main w argv)) = true).
    { destruct (report_cases w argv)
        as [(_ & E)|(a & Ha & [(t & _ & Ht & E)|(bs & ls & Hl &
             [(t1 & _ & Ht & E)|(s & Hc &
               [(e & _ & _ & E)|(t2 & mean & str & Hs & Ht & _ & E)])])])];
        try (apply main_of_report_raise in E); rewrite E;
        unfold trace at 1; cbn [fst]; auto.
      - apply trace_offline_app; [reflexivity | apply record_lines_offline].
      - apply trace_offline_app; [reflexivity|].
        apply trace_offline_app; [apply record_lines_offline|].
        apply trace_offline_app; [exact Ht|].
        apply (notify_no_pr w a s str (Hpr' a Ha)). }
    intros ev Hin. rewrite forallb_forall in Hoff. apply Hoff in Hin.
    unfold offline in Hin. apply andb_true_iff in Hin.
    destruct Hin as [H1 H2].
    now rewrite negb_true_iff in H1, H2.
  - intros w' Hfiles. unfold main. f_equal. unfold report.
    destruct (outcome (read_arguments argv)) as [a|e] eqn:Ha.
    + rewrite (run_eta (read_arguments argv)), read_arguments_trace, Ha.
      rewrite !bind_ok_l.
      assert (Hload : load_times w' a = load_times w a).
      { unfold load_times, read_timing. now rewrite !Hfiles. }
      rewrite Hload.
      assert (Hk : forall (times : list float * list float),
        (s <- compare (fst times) (snd times);;
         summary <- summarize s;;
         notify w' a s (snd summary);; ret (s, fst summary)) =
        (s <- compare (fst times) (snd times);;
         summary <- summarize s;;
         notify w a s (snd summary);; ret (s, fst summary))).
      { intros times. apply bind_ext. intros s. apply bind_ext.
        intros summary.
        now rewrite (proj2 (proj2 (notify_no_pr w a s (snd summary)
                                     (Hpr' a eq_refl))) w'). }
      now rewrite (bind_ext _ _ _ Hk).
    + rewrite (run_eta (read_arguments argv)), read_arguments_trace, Ha.
      reflexivity.
  - intros a bs ls t0 t1 t2 s mean str Ha Hl Hc Hs.
    pose proof (main_run w argv a bs ls t0 t1 t2 s mean str Ha Hl Hc Hs)
      as (_ & Hmain).
    destruct (notify_no_pr w a s str (Hpr' a Ha)) as (Hn & _ & _).
    rewrite Hn in Hmain.
    assert (Ho : outcome (main w argv) = outcome (verdict s mean)).
    { now rewrite Hmain. }
    split; [exact Ho|].
    rewrite <- verdict_fails_iff. unfold fails. now rewrite Ho.
Qed.

Lemma no_pull_request_no_http_witness :
  let w := sample_world [100] [121] false in
  (forall ev, In ev (trace (main w argv_no_pr)) ->
     is_http_post ev = false /\ is_event_read ev = false) /\
  outcome (main w argv_no_pr) = Raise AssertionError.
Proof.
  cbv zeta.
  pose proof (no_pull_request_no_http (sample_world [100] [121] false)
                argv_no_pr eq_refl) as (Hquiet & _ & Hthr).
  split; [exact Hquiet|].
  destruct (Hthr (sample_arguments EmptyString) [100] [121] _ _ _ _ _ _
              eq_refl eq_refl eq_refl eq_refl) as (Ho & _).
  rewrite Ho. reflexivity.
Defined.

(** ** How many benchmarks are compared *)

Lemma combine_nonzero (bs ls : list float) :
  Forall (fun b => (b =? 0) = false) bs ->
  Forall (fun p => (fst p =? 0) = false) (combine bs ls).
Proof.
  intros H. revert ls.
  induction H as [|b bs Hb _ IH]; intros [|l ls]; simpl; constructor; auto.
Qed.

(** C9: the loop runs over as many pairs as the shortest of the four
    parsed files has entries: each reduction keeps the shorter length of its
    two samples, and pairing the two reduced sequences keeps the shorter of
    those. A completed loop ends with [n] equal to that number and has
    printed that many record lines, and the loop does complete when no
    reduced baseline time is zero. *)
Theorem compared_count (w : World) (a : arguments)
    (b1 b2 l1 l2 : list float) :
  timing_file w (baseline_timing_file_1 a) = Some b1 ->
  timing_file w (baseline_timing_file_2 a) = Some b2 ->
  timing_file w (latest_timing_file_1 a) = Some l1 ->
  timing_file w (latest_timing_file_2 a) = Some l2 ->
  let shortest :=
    Nat.min (Nat.min (List.length b1) (List.length b2))
            (Nat.min (List.length l1) (List.length l2)) in
  let pairs := combine (fastest b1 b2) (fastest l1 l2) in
  load_times w a = (reading_events a, Ok (fastest b1 b2, fastest l1 l2)) /\
  List.length (fastest b1 b2) = Nat.min (List.length b1) (List.length b2) /\
  List.length (fastest l1 l2) = Nat.min (List.length l1) (List.length l2) /\
  List.length pairs = shortest /\
  (forall t s, compare (fastest b1 b2) (fastest l1 l2) = (t, Ok s) ->
     n s = shortest /\ t = record_lines 0 pairs /\
     List.length t = shortest) /\
  (Forall (fun b => (b =? 0) = false) (fastest b1 b2) ->
   exists s, compare (fastest b1 b2) (fastest l1 l2)
             = (record_lines 0 pairs, Ok s)).
Proof.
  intros H1 H2 H3 H4. cbv zeta.
  assert (Hlen : List.length (combine (fastest b1 b2) (fastest l1 l2)) =
                 Nat.min (Nat.min (List.length b1) (List.length b2))
                         (Nat.min (List.length l1) (List.length l2))).
  { now rewrite length_combine, !fastest_length. }
  split; [now apply load_times_ok|].
  split; [apply fastest_length|]. split; [apply fastest_length|].
  split; [exact Hlen|]. split.
  - intros t s Hc. unfold compare in Hc. apply compare_loop_ok_inv in Hc.
    destruct Hc as (_ & Ht & Hn & _).
    split; [rewrite Hn, Hlen; reflexivity|].
    split; [exact Ht|]. now rewrite Ht, record_lines_length.
  - intros Hnz. unfold compare.
    apply (compare_loop_total _ initial), combine_nonzero, Hnz.
Qed.

Lemma compared_count_witness :
  exists t s,
    compare (fastest [10; 10; 10] [11; 9]) (fastest [8; 9; 7; 6] [8; 8; 8])
      = (t, Ok s) /\
    n s = 2%nat /\ List.length t = 2%nat.
Proof.
  eexists _, _. split; [reflexivity|].
  pose proof (compared_count
                {| timing_file := four_files [10; 10; 10] [11; 9]
                                    [8; 9; 7; 6] [8; 8; 8];
                   github_event_path := None; event_sha := None;
                   post_response := fun _ => None |}
                (sample_arguments EmptyString)
                [10; 10; 10] [11; 9] [8; 9; 7; 6] [8; 8; 8]
                eq_refl eq_refl eq_refl eq_refl)
    as (_ & _ & _ & _ & Hc & _).
  destruct (Hc _ _ eq_refl) as (Hn & _ & Hlen).
  split; [exact Hn | exact Hlen].
Defined.

(** The boundary scenario: both baseline samples are 10, the latest samples
    are 9 and 11, so the reduced ratio is exactly 0.9; nothing is reported
    and the run succeeds. *)
Example boundary_run_succeeds :
  let w := {| timing_file := four_files [10] [10] [9] [11];
              github_event_path := None; event_sha := None;
                   post_response := fun _ => None |} in
  fastest [9] [11] = [9] /\
  9 / 10 = 0.9 /\
  main w argv_pr =
    (reading_events (sample_arguments "7")
       ++ [Print (record_line 0 0.9 10 9);
           Print (ratio_line 0.9 0.9 0.9);
           Print (totals_line 10 9)],
     Ok tt).
Proof. repeat split; reflexivity. Qed.

(** * Further properties of the script *)

(** ** Command-line arguments *)

Lemma read_arguments_length (argv : list string) :
  ((List.length argv < 6)%nat ->
   outcome (read_arguments argv) = Raise IndexError) /\
  ((6 <= List.length argv)%nat ->
   exists a, outcome (read_arguments argv) = Ok a).
Proof.
  unfold read_arguments, argv_get.
  destruct argv as [|a0 [|a1 [|a2 [|a3 [|a4 [|a5 rest]]]]]]; simpl;
    split; intros H; try lia; try reflexivity.
  eexists. reflexivity.
Qed.

(** X1: the run ends with [IndexError] exactly when [sys.argv] has fewer
    than six entries (script name and five arguments), and then it has
    printed nothing and read no file. *)
Theorem missing_arguments_index_error (w : World) (argv : list string) :
  (outcome (main w argv) = Raise IndexError <-> (List.length argv < 6)%nat) /\
  ((List.length argv < 6)%nat -> main w argv = ([], Raise IndexError)).
Proof.
  destruct (read_arguments_length argv) as [Hshort Hlong].
  assert (Hfail : (List.length argv < 6)%nat ->
                  main w argv = ([], Raise IndexError)).
  { intros Hlen. apply main_of_report_raise. unfold report.
    rewrite (run_eta (read_arguments argv)), read_arguments_trace,
      (Hshort Hlen).
    reflexivity. }
  split; [|exact Hfail]. split.
  - intros H. destruct (Nat.lt_ge_cases (List.length argv) 6) as [Hlt|Hge];
      [exact Hlt|exfalso].
    destruct (Hlong Hge) as (a0 & Ha0).
    destruct (report_cases w argv)
      as [(E0 & _)|(a & Ha & [(t & _ & _ & E)|(bs & ls & Hl &
           [(t1 & _ & _ & E)|(s & Hc &
             [(e & _ & [-> | ->] & E)|(t2 & mean & str & Hs & _ & _ & E)])])])];
      try (apply main_of_report_raise in E; rewrite E in H; discriminate).
    + rewrite E0 in Ha0. discriminate.
    + rewrite E in H. cbn [outcome snd] in H.
      destruct (outcome (notify w a s str)) as [[]|e] eqn:Hn.
      * rewrite verdict_cases in H. cbn [outcome snd] in H.
        destruct ((errors s =? 0)%nat && (mean <? 1.06)); discriminate.
      * apply notify_raise in Hn. inversion H; subst e.
        destruct Hn as ([Hn|[Hn|[Hn|Hn]]] & _); discriminate.
  - intros Hlen. now rewrite (Hfail Hlen).
Qed.

Lemma pull_request_number_nth_error (argv : list string) :
  (if (7 <=? List.length argv)%nat then nth 6 argv EmptyString
   else EmptyString) =
  match nth_error argv 6 with Some x => x | None => EmptyString end.
Proof.
  destruct argv as [|a0 [|a1 [|a2 [|a3 [|a4 [|a5 [|a6 rest]]]]]]];
    reflexivity.
Qed.

(** X2: the run looks at [sys.argv[1]] to [sys.argv[6]] only: two argument
    vectors that agree there (whatever the script name and any further
    arguments are) give the same run. *)
Theorem main_reads_six_arguments (w : World) (argv argv' : list string) :
  (forall k, (1 <= k <= 6)%nat -> nth_error argv k = nth_error argv' k) ->
  main w argv = main w argv'.
Proof.
  intros H.
  assert (Hargs : read_arguments argv = read_arguments argv').
  { unfold read_arguments, argv_get.
    rewrite !pull_request_number_nth_error.
    rewrite (H 1%nat), (H 2%nat), (H 3%nat), (H 4%nat), (H 5%nat), (H 6%nat)
      by lia.
    reflexivity. }
  unfold main, report. now rewrite Hargs.
Qed.

Lemma main_reads_six_arguments_witness :
  main (sample_world [10] [8] true) argv_pr =
  main (sample_world [10] [8] true)
    ["another_name.py"; "b1"; "b2"; "l1"; "l2"; "token"; "7"; "ignored"]%string.
Proof.
  apply main_reads_six_arguments.
  intros k Hk.
  destruct k as [|[|[|[|[|[|[|k]]]]]]]; try lia; reflexivity.
Defined.

(** ** Reading the timing files *)



(** ** A zero baseline *)

Lemma compare_loop_first_zero (pairs : list (float * float)) :
  forall (s : accumulators) (k : nat),
  (k < List.length pairs)%nat ->
  (fst (nth k pairs (0, 0)) =? 0) = true ->
  (forall j, (j < k)%nat -> (fst (nth j pairs (0, 0)) =? 0) = false) ->
  compare_loop s pairs =
    (record_lines (n s) (firstn k pairs), Raise ZeroDivisionError).
Proof.
  induction pairs as [|[b l] rest IH]; intros s k Hk Hz Hbefore.
  - simpl in Hk. lia.
  - destruct k as [|k].
    + simpl in Hz. simpl. now rewrite (loop_body_zero s b l Hz).
    + assert (Hb : (b =? 0) = false) by (apply (Hbefore 0%nat); lia).
      simpl. rewrite (loop_body_nonzero s b l Hb), bind_ok_l.
      rewrite (IH _ k); simpl in *; [reflexivity|lia|exact Hz|].
      intros j Hj. apply (Hbefore (S j)). lia.
Qed.

(** X4: when the reduced baseline of benchmark [k] is zero and no earlier
    one is, the run ends with the division error after the record lines of
    benchmarks 0 to [k-1]: no summary line is printed and, whatever those
    benchmarks were classified as, nothing is posted. *)
Theorem zero_baseline_aborts (w : World) (argv : list string)
    (a : arguments) (bs ls : list float) (t0 : list event) (k : nat) :
  outcome (read_arguments argv) = Ok a ->
  load_times w a = (t0, Ok (bs, ls)) ->
  (k < List.length (combine bs ls))%nat ->
  (fst (nth k (combine bs ls) (0, 0)) =? 0) = true ->
  (forall j, (j < k)%nat ->
     (fst (nth j (combine bs ls) (0, 0)) =? 0) = false) ->
  main w argv =
    (reading_events a ++ record_lines 0 (firstn k (combine bs ls)),
     Raise ZeroDivisionError) /\
  posts (trace (main w argv)) = [] /\
  List.length (stdout (trace (main w argv))) = (4 + k)%nat.
Proof.
  intros Ha Hl Hk Hz Hbefore.
  pose proof (compare_loop_first_zero _ initial k Hk Hz Hbefore) as Hc.
  apply load_times_ok_inv in Hl as Hl'.
  destruct Hl' as (b1 & b2 & l1 & l2 & _ & _ & _ & _ & -> & _ & _).
  assert (Hmain : main w argv =
    (reading_events a ++ record_lines 0 (firstn k (combine bs ls)),
     Raise ZeroDivisionError)).
  { apply main_of_report_raise. unfold report.
    rewrite (run_eta (read_arguments argv)), read_arguments_trace, Ha.
    rewrite bind_ok_l, Hl, bind_ok_l. cbn [fst snd].
    unfold compare. rewrite Hc. reflexivity. }
  split; [exact Hmain|]. rewrite Hmain. cbn [trace fst].
  assert (Hrec : forall pairs i,
            posts (record_lines i pairs) = [] /\
            List.length (stdout (record_lines i pairs)) = List.length pairs).
  { induction pairs as [|[b l] rest IH]; intros i; simpl; [auto|].
    destruct (IH (S i)) as [IH1 IH2]. split; [exact IH1|]. now rewrite IH2. }
  destruct (Hrec (firstn k (combine bs ls)) 0%nat) as [Hp Hs].
  unfold posts, stdout in *. rewrite !flat_map_app, Hp, length_app, Hs.
  split; [reflexivity|]. rewrite length_firstn. simpl. lia.
Qed.

Lemma zero_baseline_aborts_witness :
  main (sample_world [100; 0; 10] [121; 5; 10] true) argv_pr =
    (reading_events (sample_arguments "7")
       ++ [Print (record_line 0 (121 / 100) 100 121)],
     Raise ZeroDivisionError).
Proof.
  refine (proj1 (zero_baseline_aborts
            (sample_world [100; 0; 10] [121; 5; 10] true) argv_pr
            (sample_arguments "7") [100; 0; 10] [121; 5; 10] _ 1
            eq_refl eq_refl _ eq_refl _)).
  - simpl. lia.
  - intros j Hj. destruct j as [|j]; [reflexivity|lia].
Defined.

(** ** What the loop accumulates *)

(** X5: after a completed loop the accumulators are the folds of the
    compared pairs: [n] is their number, [errors] the number of pairs that
    satisfy the hard-regression condition, the three totals the
    left-to-right float sums of the baselines, the latest times and the
    ratios; and the mean computed next is the sum of the ratios divided by
    their number. *)
Theorem accumulators_are_folds (bs ls : list float) (t : list event)
    (s : accumulators) :
  compare bs ls = (t, Ok s) ->
  let pairs := combine bs ls in
  n s = List.length pairs /\
  errors s = hard_regressions pairs /\
  total_baseline s = running_sum 0 (map fst pairs) /\
  total_latest s = running_sum 0 (map snd pairs) /\
  total_rel_dur s = running_sum 0 (ratios pairs) /\
  (forall t2 mean str, summarize s = (t2, Ok (mean, str)) ->
     mean = running_sum 0 (ratios pairs)
              / float_of_int (List.length pairs)).
Proof.
  intros Hc. cbv zeta. unfold compare in Hc.
  apply compare_loop_ok_inv in Hc.
  destruct Hc as (_ & _ & Hn & He & Htr & Htb & Htl & _).
  simpl in Hn, He.
  repeat split; auto.
  intros t2 mean str Hs.
  destruct (summarize_cases s)
    as [(_ & Hs')|[(_ & _ & Hs')|(r & _ & _ & Hs')]];
    rewrite Hs' in Hs; inversion Hs.
  now rewrite Htr, Hn.
Qed.

Lemma accumulators_are_folds_witness :
  exists t s,
    compare [100; 10; 10] [121; 10; 8] = (t, Ok s) /\
    n s = 3%nat /\ errors s = 1%nat /\
    total_baseline s = 120 /\ total_latest s = 139.
Proof.
  eexists _, _. split; [reflexivity|].
  pose proof (accumulators_are_folds [100; 10; 10] [121; 10; 8] _ _ eq_refl)
    as (Hn & He & Hb & Hl & _).
  repeat split; assumption.
Defined.

Lemma classify_message_for (i : nat) (b l : float) (errs : nat)
    (msgs : list text) :
  classify i b l (l / b) errs msgs =
    ((errs + (if too_slow b l then 1 else 0))%nat,
     msgs ++ message_for i b l).
Proof.
  unfold classify, message_for. cbv zeta.
  destruct (too_slow b l); [f_equal; lia|].
  destruct (1.1 <? l / b); [f_equal; lia|].
  destruct (l / b <? 0.9); [f_equal; lia|].
  rewrite app_nil_r. f_equal. lia.
Qed.

Lemma message_for_hard (i : nat) (b l : float) :
  ((if too_slow b l then 1 else 0) <= List.length (message_for i b l) <= 1)%nat.
Proof.
  unfold message_for. cbv zeta.
  destruct (too_slow b l); [simpl; lia|].
  destruct (1.1 <? l / b); [simpl; lia|].
  destruct (l / b <? 0.9); simpl; lia.
Qed.

Lemma expected_messages_bounds (pairs : list (float * float)) :
  forall i,
  (hard_regressions pairs <= List.length (expected_messages i pairs)
   <= List.length pairs)%nat.
Proof.
  unfold hard_regressions.
  induction pairs as [|[b l] rest IH]; intros i; simpl; [lia|].
  rewrite length_app. specialize (IH (S i)).
  pose proof (message_for_hard i b l).
  destruct (too_slow b l); simpl; lia.
Qed.

(** The loop appends the messages of the pairs, in order. *)
Lemma compare_loop_messages (pairs : list (float * float)) :
  forall (s0 s1 : accumulators) (t1 : list event),
  compare_loop s0 pairs = (t1, Ok s1) ->
  messages s1 = messages s0 ++ expected_messages (n s0) pairs.
Proof.
  induction pairs as [|[b l] rest IH]; intros s0 s1 t1 H.
  - simpl in H. inversion H; subst. simpl. now rewrite app_nil_r.
  - simpl in H. apply bind_ok_inv in H.
    destruct H as (ta & sa & tb & Hbody & Hrest & _).
    apply loop_body_ok_inv in Hbody.
    destruct Hbody as (_ & _ & Hn & _ & _ & _ & _ & Hcl).
    rewrite classify_message_for in Hcl. inversion Hcl as [[He Hm]].
    rewrite (IH _ _ _ Hrest), Hm, Hn, <- app_assoc. reflexivity.
Qed.

(** The messages of a list of pairs, written out: each pair with its
    position contributes at most one text. *)
Lemma expected_messages_written_out (pairs : list (float * float)) :
  forall i,
  expected_messages i pairs =
    List.concat
      (map (fun '(k, (b, l)) =>
              if (b * 1.2 <? l) && (5.0 <? l - b) then
                [[Lit "🚫 Benchmark #"; IntF k; Lit " is too slow: +";
                  Fixed 1 (100 * (l / b - 1)); Lit "%"]]
              else if 1.1 <? l / b then
                [[Lit "⚠️Potential non-blocking slowdown in benchmark #";
                  IntF k; Lit ": +"; Fixed 1 (100 * (l / b - 1)); Lit "%"]]
              else if l / b <? 0.9 then
                [[Lit "🔥 Potential speedup in benchmark #"; IntF k;
                  Lit ": "; Fixed 1 (100 * (l / b - 1)); Lit "%"]]
              else [])
           (combine (seq i (List.length pairs)) pairs)).
Proof.
  induction pairs as [|[b l] rest IH]; intros i; [reflexivity|].
  simpl. rewrite (IH (S i)). reflexivity.
Qed.

(** X6: the message list of a completed loop holds, in benchmark order, the
    message of every benchmark that got one, and each message names the
    position [k] of its benchmark and shows its percentage
    [100 * (ratio - 1)] with one decimal; every hard regression has its
    message, so the error count never exceeds the number of messages, and a
    run with an error always has something to report. *)
Theorem messages_in_benchmark_order (bs ls : list float) (t : list event)
    (s : accumulators) :
  compare bs ls = (t, Ok s) ->
  let pairs := combine bs ls in
  messages s =
    List.concat
      (map (fun '(k, (b, l)) =>
              if (b * 1.2 <? l) && (5.0 <? l - b) then
                [[Lit "🚫 Benchmark #"; IntF k; Lit " is too slow: +";
                  Fixed 1 (100 * (l / b - 1)); Lit "%"]]
              else if 1.1 <? l / b then
                [[Lit "⚠️Potential non-blocking slowdown in benchmark #";
                  IntF k; Lit ": +"; Fixed 1 (100 * (l / b - 1)); Lit "%"]]
              else if l / b <? 0.9 then
                [[Lit "🔥 Potential speedup in benchmark #"; IntF k;
                  Lit ": "; Fixed 1 (100 * (l / b - 1)); Lit "%"]]
              else [])
           (combine (seq 0 (List.length pairs)) pairs)) /\
  messages s = expected_messages 0 pairs /\
  (errors s <= List.length (messages s) <= n s)%nat /\
  ((0 < errors s)%nat -> messages s <> []).
Proof.
  intros Hc. cbv zeta. unfold compare in Hc.
  pose proof (compare_loop_messages _ _ _ _ Hc) as Hm. simpl in Hm.
  apply compare_loop_ok_inv in Hc.
  destruct Hc as (_ & _ & Hn & He & _). simpl in Hn, He.
  pose proof (expected_messages_bounds (combine bs ls) 0) as Hb.
  split; [rewrite Hm; apply expected_messages_written_out|].
  split; [exact Hm|]. rewrite Hm, He, Hn. split; [exact Hb|].
  intros Hpos Hnil. rewrite Hnil in Hb. simpl in Hb. lia.
Qed.

Lemma messages_in_benchmark_order_witness :
  exists t s,
    compare [100; 10; 10; 10] [121; 10; 8; 12] = (t, Ok s) /\
    messages s =
      [[Lit "🚫 Benchmark #"; IntF 0; Lit " is too slow: +";
        Fixed 1 (100 * (121 / 100 - 1)); Lit "%"];
       [Lit "🔥 Potential speedup in benchmark #"; IntF 2; Lit ": ";
        Fixed 1 (100 * (8 / 10 - 1)); Lit "%"];
       [Lit "⚠️Potential non-blocking slowdown in benchmark #"; IntF 3;
        Lit ": +"; Fixed 1 (100 * (12 / 10 - 1)); Lit "%"]].
Proof.
  eexists _, _. split; [reflexivity|].
  exact (proj1 (messages_in_benchmark_order [100; 10; 10; 10]
                  [121; 10; 8; 12] _ _ eq_refl)).
Defined.

(** ** The comment request *)

Lemma posts_app (t1 t2 : list event) :
  posts (t1 ++ t2) = posts t1 ++ posts t2.
Proof. unfold posts. apply flat_map_app. Qed.

Lemma stdout_app (t1 t2 : list event) :
  stdout (t1 ++ t2) = stdout t1 ++ stdout t2.
Proof. unfold stdout. apply flat_map_app. Qed.

Lemma offline_posts (t : list event) :
  forallb offline t = true -> posts t = [].
Proof.
  induction t as [|ev t IH]; simpl; [reflexivity|].
  intros H. apply andb_true_iff in H. destruct H as [Hev Ht].
  destruct ev; simpl in *; auto; discriminate.
Qed.

Lemma in_posts (t : list event) (rq : request) :
  In (HttpPost rq) t <-> In rq (posts t).
Proof.
  unfold posts. rewrite in_flat_map. split.
  - intros H. exists (HttpPost rq). split; [exact H|now left].
  - intros (ev & Hin & Hrq). destruct ev; simpl in Hrq; try tauto.
    destruct Hrq as [->|[]]. exact Hin.
Qed.

(** [send_comment] with a pull-request number, step by step. *)
Lemma send_comment_run (w : World) (message : text) (token pr : string) :
  String.eqb pr EmptyString = false ->
  send_comment w message token pr =
    match github_event_path w with
    | None => ([], Raise TypeError)
    | Some _ =>
        match event_sha w with
        | None => ([ReadEventPayload], Raise EventPayloadError)
        | Some sha =>
            let rq := comment_request message token pr sha in
            match post_response w rq with
            | None => ([ReadEventPayload; HttpPost rq], Raise ConnectionError)
            | Some ok =>
                ([ReadEventPayload; HttpPost rq; Print message],
                 if ok then Ok tt else Raise HTTPError)
            end
        end
    end.
Proof.
  intros Hpr. unfold send_comment. rewrite Hpr.
  destruct (github_event_path w) as [p|]; [|reflexivity].
  destruct (event_sha w) as [sha|]; [|reflexivity].
  cbv beta iota zeta delta [bind ret emit].
  fold (comment_request message token pr sha).
  destruct (post_response w (comment_request message token pr sha))
    as [[|]|]; reflexivity.
Qed.

Lemma notify_run (w : World) (a : arguments) (s : accumulators)
    (str : text) :
  notify w a s str =
    match messages s with
    | [] => ([], Ok tt)
    | _ :: _ =>
        let sent := send_comment w (comment_text s str) (github_token a)
                      (pull_request_number a) in
        (Print (sending_line (comment_text s str)) :: trace sent,
         outcome sent)
    end.
Proof.
  destruct (messages s) as [|m ms] eqn:Hm.
  - now apply notify_empty.
  - assert (Hne : messages s <> []) by congruence.
    exact (notify_nonempty w a s str Hne).
Qed.

(** A run either stays offline or reaches the notification step. *)
Lemma main_trace_cases (w : World) (argv : list string) :
  forallb offline (trace (main w argv)) = true \/
  exists a bs ls s t2 mean str,
    outcome (read_arguments argv) = Ok a /\
    load_times w a = (reading_events a, Ok (bs, ls)) /\
    compare bs ls = (record_lines 0 (combine bs ls), Ok s) /\
    summarize s = (t2, Ok (mean, str)) /\
    forallb offline t2 = true /\
    main w argv =
      (reading_events a ++ record_lines 0 (combine bs ls) ++ t2
         ++ trace (notify w a s str),
       match outcome (notify w a s str) with
       | Ok _ => outcome (verdict s mean)
       | Raise e => Raise e
       end).
Proof.
  destruct (report_cases w argv)
    as [(_ & E)|(a & Ha & [(t & _ & Ht & E)|(bs & ls & Hl &
         [(t1 & _ & Ht & E)|(s & Hc &
           [(e & _ & _ & E)|(t2 & mean & str & Hs & Ht & _ & E)])])])];
    try (apply main_of_report_raise in E; left; rewrite E;
         unfold trace; cbn [fst]).
  - reflexivity.
  - exact Ht.
  - apply trace_offline_app; [reflexivity|exact Ht].
  - apply trace_offline_app; [reflexivity|apply record_lines_offline].
  - right. exists a, bs, ls, s, t2, mean, str. repeat split; assumption.
Qed.

(** X7: a run sends at most one HTTP request, and none at all when no
    benchmark got a message, even if a pull-request number was given. *)
Theorem at_most_one_post (w : World) (argv : list string) :
  (List.length (posts (trace (main w argv))) <= 1)%nat /\
  (forall a bs ls t0 t1 s,
     outcome (read_arguments argv) = Ok a ->
     load_times w a = (t0, Ok (bs, ls)) ->
     compare bs ls = (t1, Ok s) ->
     messages s = [] ->
     posts (trace (main w argv)) = []).
Proof.
  destruct (main_trace_cases w argv)
    as [Hoff|(a & bs & ls & s & t2 & mean & str & Ha & Hl & Hc & Hs & Ht2
              & E)].
  - rewrite (offline_posts _ Hoff). split; [simpl; lia|reflexivity].
  - assert (Hposts : posts (trace (main w argv)) =
                     posts (trace (notify w a s str))).
    { rewrite E. unfold trace at 1. cbn [fst]. rewrite !posts_app.
      rewrite (offline_posts _ (reading_events_offline a)),
        (offline_posts _ (record_lines_offline _ 0)), (offline_posts _ Ht2).
      reflexivity. }
    rewrite Hposts, notify_run. split.
    + destruct (messages s) as [|m ms]; [simpl; lia|]. cbv zeta.
      unfold trace at 1. cbn [fst]. simpl.
      destruct (String.eqb (pull_request_number a) EmptyString) eqn:Hpr.
      * apply String.eqb_eq in Hpr. rewrite Hpr. simpl. lia.
      * rewrite (send_comment_run _ _ _ _ Hpr).
        destruct (github_event_path w) as [p|]; [|simpl; lia].
        destruct (event_sha w) as [sha|]; [|simpl; lia]. cbv zeta.
        destruct (post_response w _) as [ok|]; simpl; lia.
    + intros a' bs' ls' t0 t1 s' Ha' Hl' Hc' Hm.
      rewrite Ha in Ha'. inversion Ha'; subst a'.
      rewrite Hl in Hl'. inversion Hl'; subst bs' ls'.
      rewrite Hc in Hc'. inversion Hc'; subst s'.
      now rewrite Hm.
Qed.

(** X8: every request a run sends goes to the comments of the pull request
    named by [sys.argv[6]], which is not empty, carries [sys.argv[5]] as
    token and the commit hash of the event payload, and has as body the
    very text that was printed in the "Sending" line just before the event
    payload was read and the request made. *)
Theorem posted_request_fields (w : World) (argv : list string)
    (rq : request) :
  In (HttpPost rq) (trace (main w argv)) ->
  exists token sha before after,
    nth_error argv 5 = Some token /\
    nth 6 argv EmptyString <> EmptyString /\
    event_sha w = Some sha /\
    rq = comment_request (body rq) token (nth 6 argv EmptyString) sha /\
    trace (main w argv) =
      before ++ Print (sending_line (body rq)) :: ReadEventPayload
             :: HttpPost rq :: after.
Proof.
  intros Hin.
  destruct (main_trace_cases w argv)
    as [Hoff|(a & bs & ls & s & t2 & mean & str & Ha & Hl & Hc & Hs & Ht2
              & E)].
  { rewrite forallb_forall in Hoff. apply Hoff in Hin. discriminate. }
  assert (Hno : forall t, forallb offline t = true -> ~ In (HttpPost rq) t).
  { intros t Ht Habs. rewrite forallb_forall in Ht. apply Ht in Habs.
    discriminate. }
  rewrite E in Hin |- *. unfold trace at 1 in Hin. unfold trace at 1.
  cbn [fst] in *.
  apply in_app_or in Hin.
  destruct Hin as [Hin|Hin]; [now apply Hno in Hin|].
  apply in_app_or in Hin.
  destruct Hin as [Hin|Hin];
    [now apply (Hno _ (record_lines_offline _ 0)) in Hin|].
  apply in_app_or in Hin. destruct Hin as [Hin|Hin]; [now apply Hno in Hin|].
  rewrite notify_run in Hin |- *.
  destruct (messages s) as [|m ms]; [destruct Hin|]. cbv zeta in Hin |- *.
  unfold trace at 1 in Hin. unfold trace at 1. cbn [fst] in *.
  destruct Hin as [Hin|Hin]; [discriminate|].
  apply read_arguments_ok in Ha.
  destruct Ha as (Hpr & _ & _ & _ & _ & Htok).
  destruct (String.eqb (pull_request_number a) EmptyString) eqn:Hpre.
  { apply String.eqb_eq in Hpre. rewrite Hpre in Hin. destruct Hin. }
  rewrite (send_comment_run _ _ _ _ Hpre) in Hin |- *.
  destruct (github_event_path w) as [p|] eqn:Hpath; [|destruct Hin].
  destruct (event_sha w) as [sha|] eqn:Hsha.
  2:{ destruct Hin as [Hin|[]]. discriminate. }
  cbv zeta in Hin |- *.
  set (rq0 := comment_request (comment_text s str) (github_token a)
                (pull_request_number a) sha) in *.
  assert (Hrq : rq = rq0).
  { destruct (post_response w rq0) as [ok|]; unfold trace in Hin;
      cbn [fst] in Hin; simpl in Hin;
      intuition (try discriminate; congruence). }
  subst rq.
  exists (github_token a), sha,
    (reading_events a ++ record_lines 0 (combine bs ls) ++ t2).
  exists (match post_response w rq0 with
          | Some _ => [Print (comment_text s str)]
          | None => []
          end).
  split; [exact Htok|]. split.
  { rewrite <- Hpr. intros Habs. rewrite Habs in Hpre. discriminate. }
  split; [reflexivity|]. split; [now rewrite <- Hpr|].
  rewrite <- !app_assoc.
  destruct (post_response w rq0) as [ok|]; reflexivity.
Qed.

Lemma posted_request_fields_witness :
  exists rq before after,
    url rq =
      "https://api.github.com/repos/returntocorp/semgrep/issues/7/comments"%string /\
    authorization rq = "Token token"%string /\
    commit_id rq = "0123abc"%string /\
    trace (main (sample_world [100] [121] true) argv_pr) =
      before ++ Print (sending_line (body rq)) :: ReadEventPayload
             :: HttpPost rq :: after.
Proof.
  set (w := sample_world [100] [121] true).
  set (rq := comment_request
               (comment_text
                  {| n := 1; total_baseline := 100; total_latest := 121;
                     total_rel_dur := 121 / 100;
                     min_rel_dur := 1; max_rel_dur := 121 / 100;
                     messages := [too_slow_message 0 (100 * (121 / 100 - 1))];
                     errors := 1; rel_dur := Some (121 / 100) |}
                  [Fixed 1 (100 * (121 / 100 - 1)); Lit "% slower"])
               "token" "7" "0123abc").
  assert (Hin : In (HttpPost rq) (trace (main w argv_pr))).
  { vm_compute. do 13 right. left. reflexivity. }
  destruct (posted_request_fields w argv_pr rq Hin)
    as (token & sha & before & after & _ & _ & _ & _ & Ht).
  exists rq, before, after. repeat split. exact Ht.
Defined.

(** ** When the comment cannot be delivered *)

(** X9: in a run with at least one message and a pull-request number, the
    way the notification step ends decides the run before the assertions are
    reached. If GITHUB_EVENT_PATH is not set, the run ends right after the
    "Sending" line, before any file is read; if the event payload cannot be
    read or lacks the commit hash, nothing is posted; if no
    response arrives, the message is not printed again; if the response has
    an error status, the message has been printed and the run ends with the
    HTTP error, whether or not a regression was found. Only a success status
    hands over to the two assertions. *)
Theorem notification_decides_first (w : World) (argv : list string)
    (a : arguments) (bs ls : list float) (t0 t1 t2 : list event)
    (s : accumulators) (mean : float) (str : text) :
  outcome (read_arguments argv) = Ok a ->
  load_times w a = (t0, Ok (bs, ls)) ->
  compare bs ls = (t1, Ok s) ->
  summarize s = (t2, Ok (mean, str)) ->
  messages s <> [] ->
  pull_request_number a <> EmptyString ->
  let msg := comment_text s str in
  let before := t0 ++ t1 ++ t2 ++ [Print (sending_line msg)] in
  match github_event_path w with
  | None => main w argv = (before, Raise TypeError)
  | Some _ =>
      match event_sha w with
      | None =>
          main w argv = (before ++ [ReadEventPayload], Raise EventPayloadError)
      | Some sha =>
          let rq := comment_request msg (github_token a)
                      (pull_request_number a) sha in
          match post_response w rq with
          | None =>
              main w argv =
                (before ++ [ReadEventPayload; HttpPost rq],
                 Raise ConnectionError)
          | Some false =>
              main w argv =
                (before ++ [ReadEventPayload; HttpPost rq; Print msg],
                 Raise HTTPError)
          | Some true =>
              main w argv =
                (before ++ [ReadEventPayload; HttpPost rq; Print msg],
                 outcome (verdict s mean))
          end
      end
  end.
Proof.
  intros Ha Hl Hc Hs Hm Hpr. cbv zeta.
  pose proof (main_run w argv a bs ls t0 t1 t2 s mean str Ha Hl Hc Hs)
    as (_ & Hmain).
  rewrite Hmain, notify_run.
  destruct (messages s) as [|m ms]; [congruence|]. cbv zeta.
  assert (Hpr' : String.eqb (pull_request_number a) EmptyString = false).
  { now apply String.eqb_neq. }
  rewrite (send_comment_run _ _ _ _ Hpr'). unfold trace, outcome.
  destruct (github_event_path w) as [p|]; cbn [fst snd];
    [|rewrite <- ?app_assoc; reflexivity].
  destruct (event_sha w) as [sha|]; cbn [fst snd].
  - cbv zeta.
    destruct (post_response w _) as [[|]|]; cbn [fst snd];
      rewrite <- !app_assoc; reflexivity.
  - rewrite <- !app_assoc. reflexivity.
Qed.

Lemma notification_decides_first_witness :
  exists before rq msg,
    main (sample_world [100] [121] false) argv_pr =
      (before ++ [ReadEventPayload; HttpPost rq; Print msg], Raise HTTPError).
Proof.
  pose proof (notification_decides_first (sample_world [100] [121] false)
                argv_pr (sample_arguments "7") [100] [121] _ _ _ _ _ _
                eq_refl eq_refl eq_refl eq_refl) as H.
  cbv zeta in H.
  assert (Hm : messages
                 {| n := 1; total_baseline := 0 + 100;
                    total_latest := 0 + 121;
                    total_rel_dur := 0 + 121 / 100;
                    min_rel_dur := py_min 1 (121 / 100);
                    max_rel_dur := py_max 1 (121 / 100);
                    messages :=
                      snd (classify 0 100 121 (121 / 100) 0 []);
                    errors := fst (classify 0 100 121 (121 / 100) 0 []);
                    rel_dur := Some (121 / 100) |} <> []) by discriminate.
  assert (Hp : pull_request_number (sample_arguments "7") <> EmptyString)
    by discriminate.
  eexists _, _, _. exact (H Hm Hp).
Defined.

(** ** The token *)

Lemma visible_bind {A B} (m : M A) (f g : A -> M B) :
  (forall x, stdout (trace (f x)) = stdout (trace (g x)) /\
             outcome (f x) = outcome (g x)) ->
  stdout (trace (bind m f)) = stdout (trace (bind m g)) /\
  outcome (bind m f) = outcome (bind m g).
Proof.
  intros H. destruct m as [t [x|e]]; [|split; reflexivity].
  rewrite !bind_ok_l. unfold trace at 1 3, outcome at 1 3. cbn [fst snd].
  destruct (H x) as [Ht Ho]. rewrite !stdout_app, Ht, Ho. auto.
Qed.

Lemma visible_bind_l {A B} (m m' : M A) (f : A -> M B) :
  stdout (trace m) = stdout (trace m') -> outcome m = outcome m' ->
  stdout (trace (bind m f)) = stdout (trace (bind m' f)) /\
  outcome (bind m f) = outcome (bind m' f).
Proof.
  destruct m as [t r], m' as [t' r']. unfold trace, outcome. cbn [fst snd].
  intros Ht <-. destruct r as [x|e]; [|now split].
  rewrite !bind_ok_l. unfold trace, outcome. cbn [fst snd].
  now rewrite !stdout_app, Ht.
Qed.

(** X10: the token reaches nothing but the request: two runs that differ
    only in [sys.argv[5]] print the same text and end the same way, provided
    the API's answer does not depend on the token. *)
Theorem token_is_never_printed (w : World)
    (name b1 b2 l1 l2 token token' : string) (rest : list string) :
  (forall msg pr sha,
     post_response w (comment_request msg token pr sha) =
     post_response w (comment_request msg token' pr sha)) ->
  let argv := name :: b1 :: b2 :: l1 :: l2 :: token :: rest in
  let argv' := name :: b1 :: b2 :: l1 :: l2 :: token' :: rest in
  stdout (trace (main w argv)) = stdout (trace (main w argv')) /\
  outcome (main w argv) = outcome (main w argv').
Proof.
  intros Hresp. cbv zeta.
  set (pr := if (7 <=? List.length
                         (name :: b1 :: b2 :: l1 :: l2 :: token :: rest))%nat
             then nth 6 (name :: b1 :: b2 :: l1 :: l2 :: token :: rest)
                    EmptyString
             else EmptyString).
  set (a := {| baseline_timing_file_1 := b1; baseline_timing_file_2 := b2;
               latest_timing_file_1 := l1; latest_timing_file_2 := l2;
               github_token := token; pull_request_number := pr |}).
  set (a' := {| baseline_timing_file_1 := b1; baseline_timing_file_2 := b2;
                latest_timing_file_1 := l1; latest_timing_file_2 := l2;
                github_token := token'; pull_request_number := pr |}).
  assert (Ha : read_arguments
                 (name :: b1 :: b2 :: l1 :: l2 :: token :: rest)
               = ([], Ok a)) by reflexivity.
  assert (Ha' : read_arguments
                  (name :: b1 :: b2 :: l1 :: l2 :: token' :: rest)
                = ([], Ok a')) by reflexivity.
  assert (Hnotify : forall s str,
            stdout (trace (notify w a s str)) =
              stdout (trace (notify w a' s str)) /\
            outcome (notify w a s str) = outcome (notify w a' s str)).
  { intros s str. rewrite !notify_run.
    destruct (messages s) as [|m ms]; [split; reflexivity|]. cbv zeta.
    change (pull_request_number a') with pr.
    change (pull_request_number a) with pr.
    change (github_token a) with token.
    change (github_token a') with token'.
    destruct (String.eqb pr EmptyString) eqn:Hpr.
    - apply String.eqb_eq in Hpr. rewrite Hpr. split; reflexivity.
    - rewrite !(send_comment_run _ _ _ _ Hpr).
      destruct (github_event_path w) as [p|]; [|split; reflexivity].
      destruct (event_sha w) as [sha|]; [|split; reflexivity]. cbv zeta.
      rewrite <- (Hresp (comment_text s str) pr sha).
      destruct (post_response w _) as [ok|]; split; reflexivity. }
  unfold main. apply visible_bind_l; unfold report; rewrite Ha, Ha';
    rewrite !bind_ok_l; unfold trace at 1 3 || unfold outcome at 1 3;
    cbn [fst snd app];
    change (load_times w a') with (load_times w a).
  - apply visible_bind. intros times. apply visible_bind. intros s.
    apply visible_bind. intros summary.
    destruct (Hnotify s (snd summary)) as [Ht Ho].
    apply visible_bind_l; assumption.
  - apply visible_bind. intros times. apply visible_bind. intros s.
    apply visible_bind. intros summary.
    destruct (Hnotify s (snd summary)) as [Ht Ho].
    apply visible_bind_l; assumption.
Qed.

Lemma token_is_never_printed_witness :
  stdout (trace (main (sample_world [100] [121] true) argv_pr)) =
  stdout (trace (main (sample_world [100] [121] true)
                   ["compare_perf.py"; "b1"; "b2"; "l1"; "l2";
                    "another token"; "7"]%string)).
Proof.
  refine (proj1 (token_is_never_printed (sample_world [100] [121] true)
                   "compare_perf.py" "b1" "b2" "l1" "l2" "token"
                   "another token" ["7"%string] _)).
  intros msg pr sha. reflexivity.
Defined.

(** ** Not-a-number samples and the tracked extremes *)

Lemma ltb_nan_l (x y : float) : is_nan x = true -> (x <? y) = false.
Proof. intros H. apply ltb_false_iff. auto. Qed.

Lemma ltb_nan_r (x y : float) : is_nan y = true -> (x <? y) = false.
Proof. intros H. apply ltb_false_iff. auto. Qed.

(** X11: for two samples that are numbers the reduced time is one of them
    and is not above either; when either sample is not a number the reduced
    time is the first sample, so a NaN in the second file is dropped and a
    NaN in the first file is kept. *)
Theorem fastest_of_numbers_and_nan (A B : list float) (i : nat) :
  (i < Nat.min (List.length A) (List.length B))%nat ->
  let a := nth i A 0 in
  let b := nth i B 0 in
  let m := nth i (fastest A B) 0 in
  (is_nan a = false -> is_nan b = false ->
   (m = a \/ m = b) /\ (m <=? a) = true /\ (m <=? b) = true) /\
  (is_nan a = true \/ is_nan b = true -> m = a).
Proof.
  intros Hi. cbv zeta. rewrite (fastest_nth A B i 0 Hi). split.
  - apply py_min_lower_bound.
  - unfold py_min. intros [H|H].
    + now rewrite (ltb_nan_r _ _ H).
    + now rewrite (ltb_nan_l _ _ H).
Qed.

Lemma fastest_of_numbers_and_nan_witness :
  nth 1 (fastest [3; nan; 5] [4; 2; nan]) 0 = nth 1 [3; nan; 5] 0 /\
  nth 2 (fastest [3; nan; 5] [4; 2; nan]) 0 = 5 /\
  (nth 0 (fastest [3; nan; 5] [4; 2; nan]) 0 <=? 4) = true.
Proof.
  assert (H : forall i, Nat.lt i 3 ->
            Nat.lt i (Nat.min (List.length [3; nan; 5])
                              (List.length [4; 2; nan])))
    by (intros i Hi; simpl; lia).
  split; [|split].
  - apply (fastest_of_numbers_and_nan [3; nan; 5] [4; 2; nan] 1
             (H 1%nat ltac:(lia))).
    left. reflexivity.
  - apply (fastest_of_numbers_and_nan [3; nan; 5] [4; 2; nan] 2
             (H 2%nat ltac:(lia))).
    right. reflexivity.
  - apply (fastest_of_numbers_and_nan [3; nan; 5] [4; 2; nan] 0
             (H 0%nat ltac:(lia))); reflexivity.
Defined.

Lemma SFleb_trans (x y z : spec_float) :
  SFleb x y = true -> SFleb y z = true -> SFleb x z = true.
Proof.
  unfold SFleb.
  destruct x as [sx|sx| |sx mx ex], y as [sy|sy| |sy my ey],
    z as [sz|sz| |sz mz ez]; simpl;
    try discriminate; try reflexivity;
    try (destruct sx; simpl; try discriminate; try reflexivity);
    try (destruct sy; simpl; try discriminate; try reflexivity);
    try (destruct sz; simpl; try discriminate; try reflexivity);
    try (intros; discriminate).
  all: change (PosDef.Pos.compare_cont Eq) with Pos.compare.
  all: destruct (Z.compare_spec ex ey), (Z.compare_spec ey ez),
         (Z.compare_spec ex ez); simpl; try discriminate; try reflexivity;
       try lia; subst;
       destruct (Pos.compare_spec mx my), (Pos.compare_spec my mz),
         (Pos.compare_spec mx mz); simpl; try discriminate; try reflexivity;
       try lia.
Qed.

Lemma leb_trans (x y z : float) :
  (x <=? y) = true -> (y <=? z) = true -> (x <=? z) = true.
Proof. rewrite !FloatAxioms.leb_spec. apply SFleb_trans. Qed.

Lemma leb_refl (x : float) : is_nan x = false -> (x <=? x) = true.
Proof.
  intros Hx. rewrite FloatAxioms.leb_spec. unfold SFleb.
  destruct (SFcompare_diag (Prim2SF x)) as [H|H]; rewrite H; [|reflexivity].
  apply SFcompare_none in H.
  assert (Hn : is_nan x = true) by (apply is_nan_spec; tauto).
  congruence.
Qed.

(** A successful [x < y] has two numbers and gives [x <= y]. *)
Lemma ltb_true_numbers (x y : float) :
  (x <? y) = true ->
  is_nan x = false /\ is_nan y = false /\ (x <=? y) = true.
Proof.
  intros H.
  assert (Hx : is_nan x = false).
  { destruct (is_nan x) eqn:E; [|reflexivity].
    rewrite (ltb_nan_l x y E) in H. discriminate. }
  assert (Hy : is_nan y = false).
  { destruct (is_nan y) eqn:E; [|reflexivity].
    rewrite (ltb_nan_r x y E) in H. discriminate. }
  repeat split; auto.
  rewrite FloatAxioms.ltb_spec in H. rewrite FloatAxioms.leb_spec.
  unfold SFltb in H. unfold SFleb.
  destruct (SFcompare (Prim2SF x) (Prim2SF y)) as [[ | | ]|];
    try discriminate; reflexivity.
Qed.

(** One update of the tracked minimum. *)
Lemma py_min_step (m r : float) :
  is_nan m = false ->
  is_nan (py_min m r) = false /\
  (py_min m r <=? m) = true /\
  (is_nan r = false -> (py_min m r <=? r) = true) /\
  (py_min m r = m \/ py_min m r = r).
Proof.
  intros Hm. unfold py_min. destruct (r <? m) eqn:E.
  - destruct (ltb_true_numbers r m E) as (Hr & _ & Hle).
    repeat split; auto. intros _. now apply leb_refl.
  - repeat split; auto; [now apply leb_refl|].
    intros Hr. apply ltb_false_iff in E.
    destruct E as [E|[E|E]]; [exact E|congruence|congruence].
Qed.

(** One update of the tracked maximum. *)
Lemma py_max_step (m r : float) :
  is_nan m = false ->
  is_nan (py_max m r) = false /\
  (m <=? py_max m r) = true /\
  (is_nan r = false -> (r <=? py_max m r) = true) /\
  (py_max m r = m \/ py_max m r = r).
Proof.
  intros Hm. unfold py_max. destruct (m <? r) eqn:E.
  - destruct (ltb_true_numbers m r E) as (_ & Hr & Hle).
    repeat split; auto. intros _. now apply leb_refl.
  - repeat split; auto; [now apply leb_refl|].
    intros Hr. apply ltb_false_iff in E.
    destruct E as [E|[E|E]]; [exact E|congruence|congruence].
Qed.

Lemma compare_loop_extremes (pairs : list (float * float)) :
  forall (s s' : accumulators) (t : list event),
  compare_loop s pairs = (t, Ok s') ->
  is_nan (min_rel_dur s) = false -> is_nan (max_rel_dur s) = false ->
  is_nan (min_rel_dur s') = false /\ is_nan (max_rel_dur s') = false /\
  (min_rel_dur s' <=? min_rel_dur s) = true /\
  (max_rel_dur s <=? max_rel_dur s') = true /\
  (forall r, In r (ratios pairs) -> is_nan r = false ->
     (min_rel_dur s' <=? r) = true /\ (r <=? max_rel_dur s') = true) /\
  (min_rel_dur s' = min_rel_dur s \/ In (min_rel_dur s') (ratios pairs)) /\
  (max_rel_dur s' = max_rel_dur s \/ In (max_rel_dur s') (ratios pairs)).
Proof.
  induction pairs as [|[b l] rest IH]; intros s s' t H Hmin Hmax.
  - simpl in H. inversion H; subst s'.
    repeat split; auto using leb_refl; try (intros r []).
  - simpl in H. apply bind_ok_inv in H.
    destruct H as (t1 & s1 & t2 & Hbody & Hrest & _).
    destruct (b =? 0) eqn:Hb.
    { rewrite loop_body_zero in Hbody by assumption. discriminate. }
    rewrite (loop_body_nonzero s b l Hb) in Hbody.
    inversion Hbody as [[Ht1 Hs1]]. clear Hbody.
    destruct (py_min_step (min_rel_dur s) (l / b) Hmin)
      as (Hn1 & Hle1 & Hr1 & Hin1).
    destruct (py_max_step (max_rel_dur s) (l / b) Hmax)
      as (Hn2 & Hle2 & Hr2 & Hin2).
    specialize (IH s1 s' t2 Hrest). rewrite <- Hs1 in IH. simpl in IH.
    destruct (IH Hn1 Hn2) as (Hn1' & Hn2' & Hle1' & Hle2' & Hall & Hi1 & Hi2).
    split; [exact Hn1'|]. split; [exact Hn2'|].
    split; [exact (leb_trans _ _ _ Hle1' Hle1)|].
    split; [exact (leb_trans _ _ _ Hle2 Hle2')|].
    split; [|split].
    + intros r [<-|Hr] Hnum.
      * split; [exact (leb_trans _ _ _ Hle1' (Hr1 Hnum))
               |exact (leb_trans _ _ _ (Hr2 Hnum) Hle2')].
      * now apply Hall.
    + destruct Hi1 as [Hi1|Hi1]; [|right; now right].
      rewrite Hi1. destruct Hin1 as [->| ->]; [now left|right; now left].
    + destruct Hi2 as [Hi2|Hi2]; [|right; now right].
      rewrite Hi2. destruct Hin2 as [->| ->]; [now left|right; now left].
Qed.

(** X12: the tracked extremes of a completed loop are numbers even when
    some ratios are not; since both start at 1.0, the minimum is never above
    1 and the maximum never below 1; every ratio that is a number lies
    between them; and each of them is 1.0 or one of the ratios. *)
Theorem tracked_extremes (bs ls : list float) (t : list event)
    (s : accumulators) :
  compare bs ls = (t, Ok s) ->
  let rs := ratios (combine bs ls) in
  is_nan (min_rel_dur s) = false /\ is_nan (max_rel_dur s) = false /\
  (min_rel_dur s <=? 1) = true /\ (1 <=? max_rel_dur s) = true /\
  (forall r, In r rs -> is_nan r = false ->
     (min_rel_dur s <=? r) = true /\ (r <=? max_rel_dur s) = true) /\
  (min_rel_dur s = 1 \/ In (min_rel_dur s) rs) /\
  (max_rel_dur s = 1 \/ In (max_rel_dur s) rs).
Proof.
  intros Hc. cbv zeta. unfold compare in Hc.
  exact (compare_loop_extremes _ _ _ _ Hc eq_refl eq_refl).
Qed.

Lemma tracked_extremes_witness :
  exists t s,
    compare [10; 10; 10] [12; nan; 13] = (t, Ok s) /\
    (min_rel_dur s <=? 1) = true /\
    (13 / 10 <=? max_rel_dur s) = true.
Proof.
  eexists _, _. split; [reflexivity|].
  pose proof (tracked_extremes [10; 10; 10] [12; nan; 13] _ _ eq_refl)
    as (_ & _ & Hmin & _ & Hall & _).
  split; [exact Hmin|].
  apply Hall; [|reflexivity]. simpl. right; right; left. reflexivity.
Defined.

(** ** What a successful run guarantees *)

(** X13: a run that exits normally has read all four files, compared at
    least one benchmark, met no zero baseline, found no pair that satisfies
    the hard-regression condition, and computed a mean of the ratios that is
    below 1.06. *)
Theorem successful_run (w : World) (argv : list string) :
  outcome (main w argv) = Ok tt ->
  exists a b1 b2 l1 l2 mean,
    outcome (read_arguments argv) = Ok a /\
    timing_file w (baseline_timing_file_1 a) = Some b1 /\
    timing_file w (baseline_timing_file_2 a) = Some b2 /\
    timing_file w (latest_timing_file_1 a) = Some l1 /\
    timing_file w (latest_timing_file_2 a) = Some l2 /\
    let pairs := combine (fastest b1 b2) (fastest l1 l2) in
    (1 <= List.length pairs)%nat /\
    Forall (fun p => (fst p =? 0) = false) pairs /\
    hard_regressions pairs = 0%nat /\
    mean = running_sum 0 (ratios pairs) / float_of_int (List.length pairs) /\
    (mean <? 1.06) = true.
Proof.
  intros H.
  destruct (report_cases w argv)
    as [(_ & E)|(a & Ha & [(t & _ & _ & E)|(bs & ls & Hl &
         [(t1 & _ & _ & E)|(s & Hc &
           [(e & _ & _ & E)|(t2 & mean & str & Hs & _ & _ & E)])])])];
    try (apply main_of_report_raise in E; rewrite E in H; discriminate).
  rewrite E in H. cbn [outcome snd] in H.
  destruct (outcome (notify w a s str)) as [[]|e] eqn:Hn; [|discriminate].
  rewrite verdict_cases in H. cbn [outcome snd] in H.
  destruct ((errors s =? 0)%nat && (mean <? 1.06)) eqn:Hv; [|discriminate].
  apply andb_true_iff in Hv. destruct Hv as [He Hmean].
  apply Nat.eqb_eq in He.
  apply load_times_ok_inv in Hl.
  destruct Hl as (b1 & b2 & l1 & l2 & H1 & H2 & H3 & H4 & _ & -> & ->).
  unfold compare in Hc. apply compare_loop_ok_inv in Hc.
  destruct Hc as (Hall & _ & Hn' & He' & Htr & _). simpl in Hn', He'.
  destruct (summarize_cases s)
    as [(_ & Hs')|[(_ & _ & Hs')|(r & Hz & _ & Hs')]];
    rewrite Hs' in Hs; inversion Hs as [[Ht2 Hmean' Hstr]].
  exists a, b1, b2, l1, l2, mean. cbv zeta.
  repeat split; auto.
  - rewrite <- Hn'. destruct (n s); [discriminate|lia].
  - congruence.
  - rewrite <- Hmean', Htr, Hn'. reflexivity.
Qed.

Lemma successful_run_witness :
  exists a mean,
    outcome (read_arguments argv_no_pr) = Ok a /\
    mean = running_sum 0 (ratios [(10, 10); (10, 8)]) / float_of_int 2 /\
    (mean <? 1.06) = true.
Proof.
  destruct (successful_run (sample_world [10; 10] [10; 8] true) argv_no_pr
              eq_refl)
    as (a & b1 & b2 & l1 & l2 & mean & Ha & H1 & H2 & H3 & H4 & Hrest).
  cbv zeta in Hrest. destruct Hrest as (_ & _ & _ & Hmean & Hlt).
  inversion Ha; subst a. simpl in H1, H2, H3, H4.
  inversion H1; inversion H2; inversion H3; inversion H4.
  subst b1 b2 l1 l2.
  exists (sample_arguments EmptyString), mean.
  split; [reflexivity|]. split; [exact Hmean | exact Hlt].
Defined.

(** ** When a run fails *)






